(** * froniator: a shallow embedding of [froniator.py]

    The script is run once a minute.  Each run looks at the clock, at the
    command-line flags and at which of today's files exist, asks the inverter
    for its instantaneous power and for today's archive of per-string current
    and voltage, turns the archive into per-string watts, appends to and
    rewrites today's CSV files and draws the chart.

    The embedding follows the script function by function:
    - a Python exception is a value of [exn], a call that may raise returns a
      [result], and code that also touches files or standard output runs in
      the monad [M] over a [world];
    - Python [float]s are Rocq's binary64 [float]s, [int]s are [Z];
    - the dictionaries built by comprehension are [gmap]s, [sorted] is
      [merge_sort] on the keys. *)

From Stdlib Require Import ZArith Lia String.
From Stdlib Require Import Floats.PrimFloat Floats.SpecFloat Floats.FloatOps.
From stdpp Require Import base option list gmap sorting strings.

Local Open Scope Z_scope.

(** ** Python outcomes *)

Module Py.

(** The exceptions the modelled code can raise. *)
Inductive exn : Set :=
| UnboundLocalError   (* a local variable read before assignment *)
| NameError           (* a global read before assignment *)
| ValueError
| OverflowError
| TypeError
| IndexError
| OSError             (* a file that cannot be opened *)
| TransportError      (* any other exception of [requests] *)
| JSONDecodeError.

Inductive result (A : Type) : Type :=
| Ok (a : A)
| Raise (e : exn).
Arguments Ok {A} a.
Arguments Raise {A} e.

Definition bind {A B} (r : result A) (k : A -> result B) : result B :=
  match r with
  | Ok a => k a
  | Raise e => Raise e
  end.

(** A [for] loop that appends [f x] to a list for every [x], stopping at
    the first exception. *)
Fixpoint for_each {A B} (f : A -> result B) (xs : list A) : result (list B) :=
  match xs with
  | [] => Ok []
  | x :: xs' =>
      bind (f x) (fun y => bind (for_each f xs') (fun ys => Ok (y :: ys)))
  end.

(** [int(x)] on a float: truncation toward zero; infinities and NaN raise. *)
Definition trunc_SF (x : spec_float) : Z :=
  match x with
  | S754_finite s m e =>
      let a := if 0 <=? e then Z.pos m * 2 ^ e else Z.pos m / 2 ^ (- e) in
      if s then - a else a
  | _ => 0
  end.

Definition int_of_float (x : float) : result Z :=
  match Prim2SF x with
  | S754_nan => Raise ValueError
  | S754_infinity _ => Raise OverflowError
  | sf => Ok (trunc_SF sf)
  end.

(** [math.floor(x)], the greatest integer below [x], for comparison. *)
Definition floor_SF (x : spec_float) : Z :=
  match x with
  | S754_finite s m e =>
      if 0 <=? e then (if s then - (Z.pos m * 2 ^ e) else Z.pos m * 2 ^ e)
      else (if s then (- Z.pos m) / 2 ^ (- e) else Z.pos m / 2 ^ (- e))
  | _ => 0
  end.

Definition floor_of_float (x : float) : result Z :=
  match Prim2SF x with
  | S754_nan => Raise ValueError
  | S754_infinity _ => Raise OverflowError
  | sf => Ok (floor_SF sf)
  end.

Definition is_finite (x : float) : bool :=
  match Prim2SF x with
  | S754_nan | S754_infinity _ => false
  | _ => true
  end.

(** The sign bit is clear: [x] is [+0.0] or positive. *)
Definition is_nonneg (x : float) : bool :=
  match Prim2SF x with
  | S754_zero _ => true
  | S754_finite s _ _ => negb s
  | _ => false
  end.

(** [float(n)] for an integer [n], rounded to nearest even. *)
Definition float_of_Z (n : Z) : float :=
  SF2Prim (binary_normalize prec emax n 0 false).

End Py.

#[global] Instance result_ret : MRet Py.result := @Py.Ok.
#[global] Instance result_bind : MBind Py.result := fun A B k r => Py.bind r k.

Import Py.

(** ** Acquisition: [call_inverter] *)

Module Acquisition.

(** What [requests.get] followed by [json.loads] does for one request. *)
Inductive reply (A : Type) : Type :=
| Response (data : A)        (* a body that parses to [data] *)
| ConnectionError            (* requests.exceptions.ConnectionError *)
| ReadTimeout                (* requests.exceptions.ReadTimeout *)
| OtherRequestError          (* any other exception of requests.get *)
| BadJson.                   (* json.loads rejects the body *)
Arguments Response {A} data.
Arguments ConnectionError {A}.
Arguments ReadTimeout {A}.
Arguments OtherRequestError {A}.
Arguments BadJson {A}.

(** The function's two locals after the [try] statement; [None] is a local
    that was never assigned. *)
Record locals (A : Type) : Type :=
  { data : option A; errorStatus : option string }.
Arguments data {A} _.
Arguments errorStatus {A} _.

Definition try_block {A} (inverterUrl : string) (r : reply A)
  : result (locals A) :=
  match r with
  | Response d =>
      Ok {| data := Some d; errorStatus := Some "OK" |}
  | ConnectionError =>
      Ok {| data := None; errorStatus := Some "Cannot connect to inverter" |}
  | ReadTimeout =>
      Ok {| data := None;
            errorStatus := Some ("Timeout reading from API: " +:+ inverterUrl) |}
  | OtherRequestError => Raise TransportError
  | BadJson => Raise JSONDecodeError
  end.

(** Reading a local: unassigned locals raise [UnboundLocalError]. *)
Definition read_local {A} (v : option A) : result A :=
  match v with
  | Some a => Ok a
  | None => Raise UnboundLocalError
  end.

Definition call_inverter {A} (inverterUrl : string) (r : reply A)
  : result (A * string) :=
  l ← try_block inverterUrl r;
  d ← read_local (data l);
  e ← read_local (errorStatus l);
  mret (d, e).

End Acquisition.

(** ** Power series transform: [calculate_power] *)

Module Transform.

(** A timezone-aware timestamp of today, as [calculate_power] builds it
    from an offset in seconds since midnight. *)
Record timestamp : Set := { ts_day : string; ts_secs : Z }.

(** The [Values] object of one archive channel: its items in document
    order, keys already read with [int] and values with [float]. *)
Definition channel : Type := list (Z * float).

Record power_payload : Set := { PAC_1 : Z }.

Record archive_payload : Type :=
  { Current_DC_String_1 : channel;
    Current_DC_String_2 : channel;
    Voltage_DC_String_1 : channel;
    Voltage_DC_String_2 : channel }.

(** [{int(k): float(v) for k, v in values.items()}]: a later item with the
    same key replaces an earlier one. *)
Definition to_dict (c : channel) : gmap Z float :=
  foldl (fun m kv => <[kv.1 := kv.2]> m) ∅ c.

Definition key_le (a b : Z * float) : Prop := a.1 <= b.1.

#[global] Instance key_le_dec a b : Decision (key_le a b) :=
  Z_le_dec a.1 b.1.

(** [sorted(d.items())]: the keys of a dictionary are distinct, so the
    tuples are ordered by key. *)
Definition sorted_items (d : gmap Z float) : list (Z * float) :=
  merge_sort key_le (map_to_list d).

Definition series (c : channel) : list (Z * float) :=
  sorted_items (to_dict c).

(** [datetime.timedelta(seconds = secs)] printed after today's date and
    parsed back with ["%Y-%m-%d %H:%M:%S"]: only an offset within the day
    prints as [H:MM:SS]; others print with a day count and do not parse,
    and a day count beyond a timedelta's range overflows. *)
Definition local_timestamp (today : string) (secs : Z) : result timestamp :=
  if (0 <=? secs) && (secs <? 86400)
  then Ok {| ts_day := today; ts_secs := secs |}
  else if (-999999999 <=? secs / 86400) && (secs / 86400 <=? 999999999)
       then Raise ValueError
       else Raise OverflowError.

Definition watts_of (current voltage : Z * float) : result Z :=
  int_of_float (PrimFloat.mul current.2 voltage.2).

(** The body of the first loop: one timestamp and one string-1 value. *)
Definition string1_step (today : string) (p : (Z * float) * (Z * float))
  : result (timestamp * Z) :=
  t ← local_timestamp today p.1.1;
  w ← watts_of p.1 p.2;
  mret (t, w).

(** The body of the second loop. *)
Definition string2_step (p : (Z * float) * (Z * float)) : result Z :=
  watts_of p.1 p.2.

Record power : Type :=
  { watts : Z;
    timestampList : list timestamp;
    str1watts : list Z;
    str2watts : list Z }.

Definition calculate_power (today : string)
    (pwrData : power_payload) (stringData : archive_payload) : result power :=
  let watts := PAC_1 pwrData in
  let string1cur := series (Current_DC_String_1 stringData) in
  let string2cur := series (Current_DC_String_2 stringData) in
  let string1volt := series (Voltage_DC_String_1 stringData) in
  let string2volt := series (Voltage_DC_String_2 stringData) in
  rows1 ← for_each (string1_step today) (zip string1cur string1volt);
  rows2 ← for_each string2_step (zip string2cur string2volt);
  mret {| watts := watts;
          timestampList := drop 54 rows1.*1;
          str1watts := drop 54 rows1.*2;
          str2watts := drop 54 rows2 |}.

End Transform.

(** ** The files of one day and the run's effects *)

Module Store.
Import Transform.

(** What [draw_graph] puts on a chart. *)
Record figure : Type :=
  { bars : list (string * Z);               (* the aggregate series *)
    lines : list (timestamp * Z * Z);       (* the two string series *)
    generated_kWh : float;
    daily_summary : bool;                   (* title ends in Daily Summary *)
    current_output : option Z;              (* or in Current Output w W *)
    test_banner : bool;
    error_note : option string }.

(** The six files a run reads or writes; [None] is a file that does not
    exist.  A CSV file is the list of its rows. *)
Record files : Type :=
  { dailyCsv : option (list (string * Z));
    stringCsv : option (list (timestamp * Z * Z));
    dailyPng : option figure;
    LIVEIMAGE : option figure;
    SUMMARYCSV : option (list (string * float * Z));
    HISTORYHTML : option string }.

(** The two files [plt.savefig] writes. *)
Inductive image_file : Set := Live | Archive.

Record world : Type :=
  { disk : files;
    stdout : list string;          (* one entry per [print] *)
    requested : list string;       (* the URLs fetched, in order *)
    saved : list image_file }.     (* one entry per [plt.savefig] *)

(** How a computation stops early. *)
Inductive stop : Type :=
| Exception (e : exn)
| SystemExit (code : Z).

Inductive outcome (A : Type) : Type :=
| Continue (a : A)
| Stop (s : stop).
Arguments Continue {A} a.
Arguments Stop {A} s.

Definition M (A : Type) : Type := world -> world * outcome A.

Definition ret {A} (a : A) : M A := fun w => (w, Continue a).

Definition bind {A B} (c : M A) (k : A -> M B) : M B :=
  fun w =>
    match c w with
    | (w', Continue a) => k a w'
    | (w', Stop s) => (w', Stop s)
    end.

Definition lift {A} (r : result A) : M A :=
  fun w =>
    match r with
    | Ok a => (w, Continue a)
    | Raise e => (w, Stop (Exception e))
    end.

Definition sys_exit {A} (code : Z) : M A :=
  fun w => (w, Stop (SystemExit code)).

Definition print (s : string) : M unit :=
  fun w =>
    ({| disk := disk w; stdout := stdout w ++ [s];
        requested := requested w; saved := saved w |},
     Continue tt).

Definition request (url : string) : M unit :=
  fun w =>
    ({| disk := disk w; stdout := stdout w;
        requested := requested w ++ [url]; saved := saved w |},
     Continue tt).

Definition get_disk : M files := fun w => (w, Continue (disk w)).

Definition modify_disk (f : files -> files) : M unit :=
  fun w =>
    ({| disk := f (disk w); stdout := stdout w;
        requested := requested w; saved := saved w |},
     Continue tt).

Definition when (b : bool) (c : M unit) : M unit := if b then c else ret tt.

(** Field updates. *)
Definition set_dailyCsv v (d : files) : files :=
  {| dailyCsv := v; stringCsv := stringCsv d; dailyPng := dailyPng d;
     LIVEIMAGE := LIVEIMAGE d; SUMMARYCSV := SUMMARYCSV d;
     HISTORYHTML := HISTORYHTML d |}.
Definition set_stringCsv v (d : files) : files :=
  {| dailyCsv := dailyCsv d; stringCsv := v; dailyPng := dailyPng d;
     LIVEIMAGE := LIVEIMAGE d; SUMMARYCSV := SUMMARYCSV d;
     HISTORYHTML := HISTORYHTML d |}.
Definition set_dailyPng v (d : files) : files :=
  {| dailyCsv := dailyCsv d; stringCsv := stringCsv d; dailyPng := v;
     LIVEIMAGE := LIVEIMAGE d; SUMMARYCSV := SUMMARYCSV d;
     HISTORYHTML := HISTORYHTML d |}.
Definition set_LIVEIMAGE v (d : files) : files :=
  {| dailyCsv := dailyCsv d; stringCsv := stringCsv d; dailyPng := dailyPng d;
     LIVEIMAGE := v; SUMMARYCSV := SUMMARYCSV d;
     HISTORYHTML := HISTORYHTML d |}.
Definition set_SUMMARYCSV v (d : files) : files :=
  {| dailyCsv := dailyCsv d; stringCsv := stringCsv d; dailyPng := dailyPng d;
     LIVEIMAGE := LIVEIMAGE d; SUMMARYCSV := v;
     HISTORYHTML := HISTORYHTML d |}.
Definition set_HISTORYHTML v (d : files) : files :=
  {| dailyCsv := dailyCsv d; stringCsv := stringCsv d; dailyPng := dailyPng d;
     LIVEIMAGE := LIVEIMAGE d; SUMMARYCSV := SUMMARYCSV d;
     HISTORYHTML := v |}.

(** [plt.savefig(name)]: the file is created or replaced. *)
Definition savefig (name : image_file) (fig : figure) : M unit :=
  fun w =>
    ({| disk := match name with
                | Live => set_LIVEIMAGE (Some fig) (disk w)
                | Archive => set_dailyPng (Some fig) (disk w)
                end;
        stdout := stdout w; requested := requested w;
        saved := saved w ++ [name] |},
     Continue tt).

(** [write_csv(filename, *args)]: open in append mode (creating the file
    if need be) and write the arguments as one row. *)
Definition write_csv {R} (file : option (list R)) (csvRow : R)
  : option (list R) :=
  Some (default [] file ++ [csvRow]).

(** A text file open for reading and writing: its content and the
    position of the next read or write. *)
Record handle : Set := { content : string; pos : nat }.

Definition carriage_return : Ascii.ascii := Ascii.ascii_of_nat 13.
Definition line_feed : Ascii.ascii := Ascii.ascii_of_nat 10.

(** A file opened in text mode is read with universal newlines: a carriage
    return, alone or followed by a line feed, comes back as one line
    feed.  (Written text goes out as it is: the line separator of the
    system the paths belong to is the line feed.) *)
Fixpoint universal_newlines (s : string) : string :=
  match s with
  | EmptyString => EmptyString
  | String ch rest =>
      if Ascii.eqb ch carriage_return then
        String line_feed
          (match rest with
           | EmptyString => EmptyString
           | String ch' rest' =>
               if Ascii.eqb ch' line_feed then universal_newlines rest'
               else universal_newlines rest
           end)
      else String ch (universal_newlines rest)
  end.

(** [file.read()]: the rest of the file, its newlines translated; the
    position moves to the end of the file. *)
Definition file_read (h : handle) : string * handle :=
  (universal_newlines
     (String.substring (pos h) (String.length (content h) - pos h)%nat
                       (content h)),
   {| content := content h; pos := String.length (content h) |}).

Definition file_seek (offset : nat) (h : handle) : handle :=
  {| content := content h; pos := offset |}.

(** Writing at the position overwrites what is there and extends the file
    past its end; what lies beyond the written text stays in the file. *)
Definition file_write (s : string) (h : handle) : handle :=
  let n := (pos h + String.length s)%nat in
  {| content :=
       String.substring 0 (pos h) (content h) +:+ s +:+
       String.substring n (String.length (content h) - n)%nat (content h);
     pos := n |}.

Definition newline : string := String (Ascii.ascii_of_nat 10) EmptyString.

(** [write_history_html(isHistoryHtml, HISTORYHTML, histHtmlStr)].  In
    append mode a missing file is created; [r+] needs the file, reads it in
    text mode and writes over it from the start without truncating. *)
Definition write_history_html (isHistoryHtml : bool) (file : option string)
    (histHtmlStr : string) : result (option string) :=
  if negb isHistoryHtml then
    Ok (Some (default EmptyString file +:+ (histHtmlStr +:+ newline)))
  else
    match file with
    | None => Raise OSError
    | Some text =>
        let h := {| content := text; pos := 0%nat |} in
        let '(historyContent, h) := file_read h in
        let h := file_seek 0%nat h in
        let h := file_write (histHtmlStr +:+ newline) h in
        let h := file_write historyContent h in
        Ok (Some (content h))
    end.

End Store.

#[global] Instance M_ret : MRet Store.M := @Store.ret.
#[global] Instance M_bind : MBind Store.M := fun A B k c => Store.bind c k.

(** ** Rendering: [draw_graph] *)

Module Render.
Import Transform Store.

(** What [np.genfromtxt] hands back: it squeezes its result, so a file of
    one row comes back as a zero-dimensional array, which indexes by field
    name but cannot be iterated. *)
Inductive ndarray (A : Type) : Type :=
| Array0 (x : A)
| Array1 (xs : list A).
Arguments Array0 {A} x.
Arguments Array1 {A} xs.

(** A missing file cannot be opened; a file without a row has no first
    line from which to size the columns, and the converter given for
    column 0 has no column to go to. *)
Definition genfromtxt {R} (file : option (list R)) : result (ndarray R) :=
  match file with
  | None => Raise OSError
  | Some [] => Raise IndexError
  | Some [r] => Ok (Array0 r)
  | Some rows => Ok (Array1 rows)
  end.

(** [data['name']]. *)
Definition field {R A} (f : R -> A) (a : ndarray R) : ndarray A :=
  match a with
  | Array0 x => Array0 (f x)
  | Array1 xs => Array1 (f <$> xs)
  end.

(** Iterating, as the builtins [max] and [sum] do. *)
Definition iterate {A} (a : ndarray A) : result (list A) :=
  match a with
  | Array0 _ => Raise TypeError
  | Array1 xs => Ok xs
  end.

Definition py_max (a : ndarray Z) : result Z :=
  xs ← iterate a;
  match xs with
  | [] => Raise ValueError
  | x :: xs' => Ok (foldl Z.max x xs')
  end.

(** With [dtype=None] a column of integers is an int64 column, and adding
    two of its elements wraps around: the sum is taken modulo 2^64 into
    the range from -2^63 up to 2^63. *)
Definition int64_add (a b : Z) : Z := (a + b + 2 ^ 63) mod 2 ^ 64 - 2 ^ 63.

(** The builtin [sum]: the elements added one by one from 0. *)
Definition py_sum (a : ndarray Z) : result Z :=
  xs ← iterate a;
  mret (foldl int64_add 0 xs).

(** The points handed to matplotlib. *)
Definition points {A} (a : ndarray A) : list A :=
  match a with
  | Array0 x => [x]
  | Array1 xs => xs
  end.

(** Reading a module-level name that may not have been assigned yet. *)
Definition read_global {A} (v : option A) : result A :=
  match v with
  | Some a => Ok a
  | None => Raise NameError
  end.

Section Drawing.
(** The builtin [round(x, ndigits)] on the float the division returns. *)
Variable round : float -> Z -> float.

Definition energy_kWh (total : Z) : float :=
  round (PrimFloat.div (PrimFloat.div (float_of_Z total) 60) 1000) 2.

(** [draw_graph(plotFnames, plotCfg, plotLabel, plotSysVal)]; [watts]
    is the module-level name the title of a live chart reads. *)
Definition draw_graph (test : bool) (err : string) (eod : bool)
    (watts : option Z) : M (float * Z) :=
  d ← get_disk;
  data ← lift (genfromtxt (dailyCsv d));
  let yAgg := field snd data in
  maxPwr ← lift (py_max yAgg);
  sdata ← lift (genfromtxt (stringCsv d));
  total ← lift (py_sum yAgg);
  let kWh := energy_kWh total in
  current ← lift (if eod then Ok None
                  else w ← read_global watts; mret (Some w));
  let fig :=
    {| bars := points data; lines := points sdata;
       generated_kWh := kWh; daily_summary := eod;
       current_output := current; test_banner := test;
       error_note := if String.eqb err "OK" then None else Some err |} in
  savefig Live fig;;
  when eod (savefig Archive fig);;
  mret (kWh, maxPwr).
End Drawing.

End Render.

(** ** The script's top level *)

Module Script.
Import Acquisition Transform Store Render.

(** The knobs and settings at the top of the source. *)
Definition TESTMODE : bool := false.
Definition FORCEDAY : bool := false.
Definition FORCEEOD : bool := false.
Definition ERRORSTATUS : string := "OK".
Definition FIRSTRUN : bool := true.
Definition ENDOFDAY : bool := false.
Definition INVERTERIP : string := "192.168.1.123".
Definition WEBPATH : string := "/pvmon/data".

Definition quote : string := String (Ascii.ascii_of_nat 34) EmptyString.

(** [log_errors(isDailyPng, isDailyCsv, isStringCsv, FIRSTRUN, ERRORSTATUS,
    timeIso)]. *)
Definition log_errors (isDailyPng isDailyCsv isStringCsv FIRSTRUN : bool)
    (ERRORSTATUS timeIso : string) : M unit :=
  (if isDailyPng && isDailyCsv && isStringCsv then
     sys_exit 0
   else if isDailyPng then
     print (newline +:+ timeIso +:+ " Daily PNG already exists")
   else if negb isDailyCsv && negb FIRSTRUN then
     print (newline +:+ timeIso +:+ " Daily inverter CSV file is missing")
   else if negb isStringCsv && negb FIRSTRUN then
     print (newline +:+ timeIso +:+ " Daily string CSV file is missing")
   else mret tt);;
  when (negb (String.eqb ERRORSTATUS "OK"))
       (print (newline +:+ timeIso +:+ " " +:+ ERRORSTATUS)).

(** The command line. *)
Record args : Set := { d : bool; e : bool; t : bool }.

(** What [parser.parse_args()] makes of the words of the command line:
    the three flags; or, for [-h], the help text it prints before it
    leaves with status 0; or a complaint on standard error (which the
    world does not record) before it leaves with status 2. *)
Inductive command_line : Set :=
| Flags (a : args)
| HelpRequested (text : string)
| Rejected.

(** [parse_cmdline()]. *)
Definition parse_cmdline (cl : command_line) : M args :=
  match cl with
  | Flags a => mret a
  | HelpRequested text => print text;; sys_exit 0
  | Rejected => sys_exit 2
  end.

(** [signal_handler(sig, frame)], which runs when the script is
    interrupted from the keyboard. *)
Definition signal_handler : M unit :=
  print EmptyString;;
  print EmptyString;;
  print "Thanks for all the fish, smeg head.";;
  print EmptyString;;
  sys_exit 1.

(** The clock and the sun: instants on one time line, today's date and
    the run's timestamp as written to the CSV files. *)
Record clock : Set :=
  { timeNow : Z; sunrise : Z; sunset : Z; today : string; timeIso : string }.

(** What the inverter does with the run's two requests. *)
Record inverter : Type :=
  { power_reply : reply power_payload;
    archive_reply : reply archive_payload }.

Definition powerApiUrl : string :=
  "http://" +:+ INVERTERIP +:+
  "/solar_api/v1/GetInverterRealtimeData.cgi?Scope=System".

Definition stringApiUrl (today : string) : string :=
  "http://" +:+ INVERTERIP +:+
  "/solar_api/v1/GetArchiveData.cgi?Scope=System&StartDate=" +:+
  today +:+ "&EndDate=" +:+ today +:+ "&Channel=Voltage_DC_String_1" +:+
  "&Channel=Current_DC_String_1&Channel=Voltage_DC_String_2" +:+
  "&Channel=Current_DC_String_2".

Definition histHtmlStr (today : string) : string :=
  "<p style=" +:+ quote +:+ "text-align:center;" +:+ quote +:+
  "><img src=" +:+ quote +:+ (WEBPATH +:+ "/" +:+ today +:+ ".png") +:+
  quote +:+ " alt=" +:+ quote +:+ today +:+ quote +:+ "></p>".

Definition exists_ {A} (file : option A) : bool :=
  match file with
  | Some _ => true
  | None => false
  end.

(** The daytime test of the first [if]. *)
Definition daytime (c : clock) (FORCEDAY FORCEEOD : bool) : bool :=
  (timeNow c >? sunrise c) && (timeNow c <? sunset c) && negb FORCEEOD
  || FORCEDAY.

(** The end-of-day test of the second [if]. *)
Definition end_of_day (c : clock)
    (isDailyPng isDailyCsv isStringCsv FORCEDAY FORCEEOD : bool) : bool :=
  (timeNow c >? sunset c) && negb isDailyPng && isDailyCsv && isStringCsv
    && negb FORCEDAY
  || FORCEEOD.

Section Main.
Variable round : float -> Z -> float.

(** The daytime block; it returns the two module-level names it may
    rebind, [ERRORSTATUS] and [watts]. *)
Definition daytime_block (c : clock) (net : inverter)
    (TESTMODE ENDOFDAY isDailyCsv FIRSTRUN : bool)
  : M (string * option Z) :=
  request powerApiUrl;;
  '(pwrData, ERRORSTATUS) ←
    lift (call_inverter powerApiUrl (power_reply net));
  request (stringApiUrl (today c));;
  '(stringData, ERRORSTATUS) ←
    lift (call_inverter (stringApiUrl (today c)) (archive_reply net));
  if String.eqb ERRORSTATUS "OK" then
    p ← lift (calculate_power (today c) pwrData stringData);
    modify_disk
      (fun f => set_dailyCsv (write_csv (dailyCsv f) (timeIso c, watts p)) f);;
    modify_disk
      (set_stringCsv
         (Some (zip (zip (timestampList p) (str1watts p)) (str2watts p))));;
    when (isDailyCsv && negb FIRSTRUN)
         (draw_graph round TESTMODE Script.ERRORSTATUS ENDOFDAY
                     (Some (watts p));; mret tt);;
    mret (ERRORSTATUS, Some (watts p))
  else
    mret (ERRORSTATUS, None).

(** The end-of-day block. *)
Definition finalize_block (c : clock) (TESTMODE isHistoryHtml : bool)
    (watts : option Z) : M unit :=
  '(kWh, maxPwr) ← draw_graph round TESTMODE Script.ERRORSTATUS true watts;
  modify_disk
    (fun f => set_SUMMARYCSV
                (write_csv (SUMMARYCSV f) (timeIso c, kWh, maxPwr)) f);;
  f ← get_disk;
  h ← lift (write_history_html isHistoryHtml (HISTORYHTML f)
                               (histHtmlStr (today c)));
  modify_disk (set_HISTORYHTML h).

(** The notices printed for the test knobs. *)
Definition announce (TESTMODE FORCEEOD FORCEDAY : bool) : M unit :=
  when TESTMODE (print (newline +:+ "TEST MODE ON"));;
  when FORCEEOD (print (newline +:+ "FORCED EOD ON"));;
  when FORCEDAY (print (newline +:+ "FORCED DAYTIME ON")).

(** The module body from the file checks on; [f] is the disk as the
    checks find it. *)
Definition blocks (c : clock) (net : inverter)
    (TESTMODE FORCEDAY FORCEEOD ENDOFDAY : bool) (f : files) : M unit :=
  let isDailyCsv := exists_ (dailyCsv f) in
  let isDailyPng := exists_ (dailyPng f) in
  let isStringCsv := exists_ (stringCsv f) in
  let isHistoryHtml := exists_ (HISTORYHTML f) in
  let FIRSTRUN := if isDailyCsv then false else FIRSTRUN in
  '(ERRORSTATUS, watts) ←
    (if daytime c FORCEDAY FORCEEOD
     then daytime_block c net TESTMODE ENDOFDAY isDailyCsv FIRSTRUN
     else mret (ERRORSTATUS, None));
  when (end_of_day c isDailyPng isDailyCsv isStringCsv FORCEDAY FORCEEOD)
       (finalize_block c TESTMODE isHistoryHtml watts);;
  log_errors isDailyPng isDailyCsv isStringCsv FIRSTRUN ERRORSTATUS
             (timeIso c).

(** The module body from the command line on. *)
Definition main (a : args) (c : clock) (net : inverter) : M unit :=
  let FORCEDAY := if d a then true else FORCEDAY in
  let FORCEEOD := if e a then true else FORCEEOD in
  let ENDOFDAY := if e a then true else ENDOFDAY in
  let TESTMODE := if t a then true else TESTMODE in
  announce TESTMODE FORCEEOD FORCEDAY;;
  f ← get_disk;
  blocks c net TESTMODE FORCEDAY FORCEEOD ENDOFDAY f.

(** One run of the script from a given state of the disk. *)
Definition run (a : args) (c : clock) (net : inverter) (f : files)
  : world * outcome unit :=
  main a c net {| disk := f; stdout := []; requested := []; saved := [] |}.

(** The script from the words of the command line on. *)
Definition script (cl : command_line) (c : clock) (net : inverter) : M unit :=
  a ← parse_cmdline cl;
  main a c net.

(** One run of the script from the shell. *)
Definition execute (cl : command_line) (c : clock) (net : inverter)
    (f : files) : world * outcome unit :=
  script cl c net {| disk := f; stdout := []; requested := []; saved := [] |}.
End Main.

End Script.

(** ** Sample inputs *)

Module Sample.
Import Acquisition Transform Store Render Script.

(** One way [round] can work on a binary64 value, the way numpy rounds:
    scale by a power of ten, round to the nearest integer with ties to
    even, scale back. *)
Definition rint_SF (x : spec_float) : Z :=
  match x with
  | S754_finite s m e =>
      let a :=
        if 0 <=? e then Z.pos m * 2 ^ e
        else
          let q := Z.pos m / 2 ^ (- e) in
          let r := Z.pos m mod 2 ^ (- e) in
          let half := 2 ^ (- e - 1) in
          if r <? half then q
          else if half <? r then q + 1
          else if Z.even q then q else q + 1 in
      if s then - a else a
  | _ => 0
  end.

Definition round_decimals (x : float) (ndigits : Z) : float :=
  if is_finite x then
    let scale := float_of_Z (10 ^ ndigits) in
    PrimFloat.div (float_of_Z (rint_SF (Prim2SF (PrimFloat.mul x scale)))) scale
  else x.

(** An archive channel of [n] samples five minutes apart, all of value
    [v]. *)
Definition flat_channel (n : nat) (v : float) : channel :=
  (fun i => (300 * Z.of_nat i, v)) <$> seq 0 n.

Definition archive (n1 n2 : nat) (current : float) : archive_payload :=
  {| Current_DC_String_1 := flat_channel n1 current;
     Current_DC_String_2 := flat_channel n2 current;
     Voltage_DC_String_1 := flat_channel n1 3;
     Voltage_DC_String_2 := flat_channel n2 3 |}.

Definition reading : power_payload := {| PAC_1 := 1200 |}.


Definition stamp (secs : Z) : timestamp :=
  {| ts_day := "2021-09-11"; ts_secs := secs |}.

(** A day with two aggregate rows and one string row on disk. *)
Definition started : files :=
  {| dailyCsv := Some [("2021-09-11T10:00:00+01:00", 900);
                       ("2021-09-11T10:01:00+01:00", 1100)];
     stringCsv := Some [(stamp 16200, 400, 500)];
     dailyPng := None; LIVEIMAGE := None;
     SUMMARYCSV := None; HISTORYHTML := None |}.

(** Sunrise at 06:00, sunset at 19:00, in seconds of the day. *)
Definition at_time (now : Z) : clock :=
  {| timeNow := now; sunrise := 21600; sunset := 68400;
     today := "2021-09-11"; timeIso := "2021-09-11T10:02:00+01:00" |}.

Definition no_flags : args := {| d := false; e := false; t := false |}.

Definition answering (n1 n2 : nat) (current : float) : inverter :=
  {| power_reply := Response reading;
     archive_reply := Response (archive n1 n2 current) |}.

End Sample.

(** * Vocabulary of the properties *)

Import Acquisition Transform Store Render Script.

(** A run ends in a Python exception, as opposed to running to the end of
    the script or leaving through [sys.exit]. *)
Definition crashed {A} (o : outcome A) : bool :=
  match o with
  | Stop (Exception _) => true
  | _ => false
  end.

(** The banners printed for the command-line flags. *)
Definition banners (a : args) : list string :=
  (if t a then [newline +:+ "TEST MODE ON"] else []) ++
  (if e a then [newline +:+ "FORCED EOD ON"] else []) ++
  (if d a then [newline +:+ "FORCED DAYTIME ON"] else []).

(** The world in which the blocks of the script start. *)
Definition started_from (a : args) (f : files) : world :=
  {| disk := f; stdout := banners a; requested := []; saved := [] |}.

(** The two failures [call_inverter] catches. *)
Definition caught {A} (r : reply A) : bool :=
  match r with
  | ConnectionError | ReadTimeout => true
  | _ => false
  end.

(** The request came back with a body that parses. *)
Definition answered {A} (r : reply A) : bool :=
  match r with
  | Response _ => true
  | _ => false
  end.

(** An inverter that cannot be reached for the first request. *)
Definition refusing : inverter :=
  {| power_reply := ConnectionError;
     archive_reply := Response (Sample.archive 56 56 2.5) |}.




(** What a computation added to standard output. *)
Definition printed (before after : world) : list string :=
  drop (length (stdout before)) (stdout after).

(** A line of the exit log: a line break, the run's timestamp, the text. *)
Definition diagnostic (timeIso text : string) : string :=
  newline +:+ timeIso +:+ text.

(** A world in which nothing was printed, requested or saved yet. *)
Definition world_with (f : files) : world :=
  {| disk := f; stdout := []; requested := []; saved := [] |}.

Definition some_world : world := world_with Sample.started.

(** The line about today's files, if any. *)
Definition file_lines (png csv scsv first : bool) (timeIso : string)
  : list string :=
  if png then [diagnostic timeIso " Daily PNG already exists"]
  else if negb csv && negb first
       then [diagnostic timeIso " Daily inverter CSV file is missing"]
  else if negb scsv && negb first
       then [diagnostic timeIso " Daily string CSV file is missing"]
  else [].

(** The line about the status, if any. *)
Definition status_lines (status timeIso : string) : list string :=
  if String.eqb status "OK" then []
  else [diagnostic timeIso (" " +:+ status)].

(** The samples of a string as the loops see them: current and voltage
    paired by position in the two sorted series. *)
Definition string1_pairs (s : archive_payload) : list ((Z * float) * (Z * float)) :=
  zip (series (Current_DC_String_1 s)) (series (Voltage_DC_String_1 s)).

(** The same for the second string. *)
Definition string2_pairs (s : archive_payload) : list ((Z * float) * (Z * float)) :=
  zip (series (Current_DC_String_2 s)) (series (Voltage_DC_String_2 s)).

(** Current times voltage of one pair, in binary64. *)
Definition product (p : (Z * float) * (Z * float)) : float :=
  PrimFloat.mul p.1.2 p.2.2.

(** The product cut to an integer toward zero. *)
Definition truncated (p : (Z * float) * (Z * float)) : Z :=
  trunc_SF (Prim2SF (product p)).

(** The greatest integer not above the product. *)
Definition floored (p : (Z * float) * (Z * float)) : Z :=
  floor_SF (Prim2SF (product p)).

(** An offset that is a time of day. *)
Definition within_day (secs : Z) : bool := (0 <=? secs) && (secs <? 86400).

(** An archive the transform can digest: every paired string-1 sample lies
    within the day and every product of a paired current and voltage is a
    finite number. *)
Definition digestible (s : archive_payload) : bool :=
  forallb (fun p => within_day p.1.1 && is_finite (product p)) (string1_pairs s)
  && forallb (fun p => is_finite (product p)) (string2_pairs s).

(** What [calculate_power] returns when it returns. *)
Definition transformed (today : string) (pwrData : power_payload)
    (stringData : archive_payload) : power :=
  {| watts := PAC_1 pwrData;
     timestampList :=
       drop 54 ((fun p => {| ts_day := today; ts_secs := p.1.1 |})
                  <$> string1_pairs stringData);
     str1watts := drop 54 (truncated <$> string1_pairs stringData);
     str2watts := drop 54 (truncated <$> string2_pairs stringData) |}.

(** Strictly ascending keys. *)
Definition key_lt (a b : Z * float) : Prop := a.1 < b.1.

(** [c] maintains the property [P] of the world, however [c] ends. *)
Definition preserves {A} (P : world -> Prop) (c : M A) : Prop :=
  forall w, P w -> P (fst (c w)).

(** [c] leaves the observation [g] of the world as it found it. *)
Definition keeps {A B} (g : world -> B) (c : M A) : Prop :=
  forall w, g (fst (c w)) = g w.

(** The file saved is the archival image. *)
Definition is_archive (name : image_file) : bool :=
  match name with
  | Archive => true
  | Live => false
  end.

(** The archival image was saved at some point. *)
Definition archived (w : world) : bool := existsb is_archive (saved w).

(** The rows written to the string CSV: [zip(zip(timestampList, str1watts),
    str2watts)]. *)
Definition string_rows (p : power) : list (timestamp * Z * Z) :=
  zip (zip (timestampList p) (str1watts p)) (str2watts p).

(** The world once both requests were answered and the two CSV files were
    written. *)
Definition sampled (c : clock) (p : power) (w : world) : world :=
  {| disk := set_stringCsv (Some (string_rows p))
               (set_dailyCsv (write_csv (dailyCsv (disk w)) (timeIso c, watts p))
                             (disk w));
     stdout := stdout w;
     requested := requested w ++ [powerApiUrl; stringApiUrl (today c)];
     saved := saved w |}.

(** [sum(yAgg)] and [max(yAgg)] over the rows of the aggregate file. *)
Definition total_watts (rows : list (string * Z)) : Z :=
  foldl int64_add 0 (snd <$> rows).

(** A value an int64 holds. *)
Definition in_int64 (z : Z) : bool := (- 2 ^ 63 <=? z) && (z <? 2 ^ 63).

(** Every element and every sum on the way, starting from [acc], is a
    value an int64 holds. *)
Fixpoint running_sums_fit (acc : Z) (xs : list Z) : bool :=
  match xs with
  | [] => true
  | x :: xs' =>
      in_int64 x && in_int64 (acc + x) && running_sums_fit (acc + x) xs'
  end.

(** A series whose watts can be added without the int64 wrapping. *)
Definition fits_int64 (rows : list (string * Z)) : bool :=
  running_sums_fit 0 (snd <$> rows).

Definition peak_watts (rows : list (string * Z)) : Z :=
  match snd <$> rows with
  | [] => 0
  | x :: xs => foldl Z.max x xs
  end.

(** The chart drawn from the rows on disk. *)
Definition chart (round : float -> Z -> float) (test : bool) (err : string)
    (eod : bool) (watts : option Z)
    (rows : list (string * Z)) (srows : list (timestamp * Z * Z)) : figure :=
  {| bars := rows; lines := srows;
     generated_kWh := energy_kWh round (total_watts rows);
     daily_summary := eod;
     current_output := if eod then None else watts;
     test_banner := test;
     error_note := if String.eqb err "OK" then None else Some err |}.

(** The world after the chart was saved. *)
Definition drawn (eod : bool) (fig : figure) (w : world) : world :=
  {| disk := (if eod then set_dailyPng (Some fig) else fun f => f)
               (set_LIVEIMAGE (Some fig) (disk w));
     stdout := stdout w; requested := requested w;
     saved := saved w ++ Live :: (if eod then [Archive] else []) |}.

(** An aggregate file without a row, and one with a single row. *)
Definition empty_day : files :=
  {| dailyCsv := Some []; stringCsv := Some [(Sample.stamp 16200, 400, 500)];
     dailyPng := None; LIVEIMAGE := None; SUMMARYCSV := None;
     HISTORYHTML := None |}.

Definition one_sample_day : files :=
  {| dailyCsv := Some [("2021-09-11T10:00:00+01:00", 900)];
     stringCsv := Some [(Sample.stamp 16200, 400, 500)];
     dailyPng := None; LIVEIMAGE := None; SUMMARYCSV := None;
     HISTORYHTML := None |}.

(** An aggregate file whose two values add up to 2^63. *)
Definition wrapping_day : files :=
  {| dailyCsv := Some [("2021-09-11T10:00:00+01:00", 2 ^ 63 - 1);
                       ("2021-09-11T10:01:00+01:00", 1)];
     stringCsv := Some [(Sample.stamp 16200, 400, 500)];
     dailyPng := None; LIVEIMAGE := None; SUMMARYCSV := None;
     HISTORYHTML := None |}.

(** What is left of the script once the two CSV files were written. *)
Definition after_sample (round : float -> Z -> float) (c : clock)
    (test fd fe eod : bool) (f : files) (p : power) : M unit :=
  when (exists_ (dailyCsv f))
       (draw_graph round test Script.ERRORSTATUS eod (Some (watts p));;
        mret tt);;
  when (end_of_day c (exists_ (dailyPng f)) (exists_ (dailyCsv f))
                   (exists_ (stringCsv f)) fd fe)
       (finalize_block round c test (exists_ (HISTORYHTML f))
                       (Some (watts p)));;
  log_errors (exists_ (dailyPng f)) (exists_ (dailyCsv f))
             (exists_ (stringCsv f)) (negb (exists_ (dailyCsv f)))
             "OK" (timeIso c).

(** The paired length of a string's two series, less the 54 samples cut. *)
Definition trimmed_length (current voltage : channel) : nat :=
  Nat.min (length (series current)) (length (series voltage)) - 54.

(** The end-of-day chart of the sample day. *)
Definition summary_chart : figure :=
  chart Sample.round_decimals false "OK" true None
        [("2021-09-11T10:00:00+01:00", 900); ("2021-09-11T10:01:00+01:00", 1100)]
        [(Sample.stamp 16200, 400, 500)].

(** The sample day after its end-of-day run. *)
Definition archived_day : files :=
  {| dailyCsv := dailyCsv Sample.started;
     stringCsv := stringCsv Sample.started;
     dailyPng := Some summary_chart;
     LIVEIMAGE := Some summary_chart;
     SUMMARYCSV := Some [("2021-09-11T19:10:00+01:00",
                          energy_kWh Sample.round_decimals 2000, 1100)];
     HISTORYHTML := Some (histHtmlStr "2021-09-11" +:+ newline) |}.

(** The transform of an archive with 60 samples for string 1 and 56 for
    string 2. *)
Definition morning_power : power :=
  transformed "2021-09-11" Sample.reading (Sample.archive 60 56 2.5).

(** The sample a daytime run takes: the transform of the two answers, when
    both requests are answered and [calculate_power] returns. *)
Definition transform_of (c : clock) (net : inverter) : option power :=
  match power_reply net, archive_reply net with
  | Response pwrData, Response stringData =>
      match calculate_power (today c) pwrData stringData with
      | Ok p => Some p
      | Raise _ => None
      end
  | _, _ => None
  end.

(** A computation that stops early only by raising, never through
    [sys.exit]. *)
Definition raises_only {A} (c : M A) : Prop :=
  forall w w' s, c w = (w', Stop s) -> exists x, s = Exception x.







(** Timestamps in strictly ascending order. *)
Definition earlier (t1 t2 : timestamp) : Prop := ts_secs t1 < ts_secs t2.

(** An archive whose second string has a sample a day late. *)
Definition late_archive : archive_payload :=
  {| Current_DC_String_1 := Sample.flat_channel 56 2.5 ++ [(90000, 2.5%float)];
     Current_DC_String_2 := Sample.flat_channel 56 2.5;
     Voltage_DC_String_1 := Sample.flat_channel 57 3;
     Voltage_DC_String_2 := Sample.flat_channel 56 3 |}.

(** An inverter that answers with that archive. *)
Definition late_inverter : inverter :=
  {| power_reply := Response Sample.reading;
     archive_reply := Response late_archive |}.

(** The archival image and both CSV files of today exist. *)
Definition all_present (f : files) : bool :=
  exists_ (dailyPng f) && exists_ (dailyCsv f) && exists_ (stringCsv f).

(** The line the exit logging prints about today's files, for the disk as
    the run found it. *)
Definition exit_lines (c : clock) (f : files) : list string :=
  if exists_ (dailyPng f)
  then [diagnostic (timeIso c) " Daily PNG already exists"]
  else if exists_ (dailyCsv f) && negb (exists_ (stringCsv f))
       then [diagnostic (timeIso c) " Daily string CSV file is missing"]
       else [].

(** * Properties *)

(** ** Running computations *)

Lemma run_bind {A B} (c : M A) (k : A -> M B) (w : world) :
  (c ≫= k) w =
  match c w with
  | (w', Continue a) => k a w'
  | (w', Stop s) => (w', Stop s)
  end.
Proof. reflexivity. Qed.


Lemma run_blocks (round : float -> Z -> float) (a : args) (c : clock)
    (net : inverter) (f : files) :
  run round a c net f
  = blocks round c net (t a) (d a) (e a) (e a) f (started_from a f).
Proof. destruct a as [[] [] []]; reflexivity. Qed.

(** ** Acquisition *)

Lemma call_inverter_caught {A} (url : string) (r : reply A) :
  caught r = true -> call_inverter url r = Raise UnboundLocalError.
Proof. destruct r; simpl; intros Hc; try discriminate; reflexivity. Qed.

Lemma call_inverter_answered {A} (url : string) (r : reply A) (x : A) :
  r = Response x -> call_inverter url r = Ok (x, "OK").
Proof. intros ->. reflexivity. Qed.

(** C1, as the code has it: in a daytime run a connection error or a read
    timeout on either request does not come back as a status.
    [call_inverter] catches the exception and sets [errorStatus], but its
    [return] reads the local [data], which the failed [try] block never
    assigned, so the call raises [UnboundLocalError].  The run ends in that
    exception after the request: no file is touched and nothing but the
    flag banners is printed, [log_errors] is never reached. *)
Theorem transport_failure_ends_in_unbound_local
    (round : float -> Z -> float) (a : args) (c : clock) (net : inverter)
    (f : files) :
  daytime c (d a) (e a) = true ->
  caught (power_reply net) = true \/
    (answered (power_reply net) = true /\ caught (archive_reply net) = true) ->
  (forall url, caught (power_reply net) = true ->
     call_inverter url (power_reply net) = Raise UnboundLocalError) /\
  (forall url, caught (archive_reply net) = true ->
     call_inverter url (archive_reply net) = Raise UnboundLocalError) /\
  snd (run round a c net f) = Stop (Exception UnboundLocalError) /\
  disk (fst (run round a c net f)) = f /\
  stdout (fst (run round a c net f)) = banners a.
Proof.
  intros Hday Hfail.
  split; [intros url; apply call_inverter_caught|].
  split; [intros url; apply call_inverter_caught|].
  rewrite run_blocks. unfold blocks.
  rewrite Hday. unfold daytime_block.
  destruct net as [pr ar]; simpl in *.
  destruct Hfail as [Hp | [Hp Ha]].
  - destruct pr; try discriminate; cbn; auto.
  - destruct pr; try discriminate; destruct ar; try discriminate; cbn; auto.
Qed.

Lemma transport_failure_ends_in_unbound_local_witness :
  snd (run Sample.round_decimals Sample.no_flags (Sample.at_time 36000)
           refusing Sample.started)
    = Stop (Exception UnboundLocalError) /\
  disk (fst (run Sample.round_decimals Sample.no_flags (Sample.at_time 36000)
                 refusing Sample.started)) = Sample.started.
Proof.
  pose proof (transport_failure_ends_in_unbound_local
                Sample.round_decimals Sample.no_flags (Sample.at_time 36000)
                refusing Sample.started) as H.
  destruct H as (_ & _ & Hend & Hdisk & _).
  - reflexivity.
  - left. reflexivity.
  - split; assumption.
Defined.

(** ** The index document *)



Lemma app_cons (ch : Ascii.ascii) (s r : string) :
  String ch s +:+ r = String ch (s +:+ r).
Proof. reflexivity. Qed.


Lemma length_app_string (s r : string) :
  String.length (s +:+ r) = (String.length s + String.length r)%nat.
Proof.
  induction s as [|ch s IH]; [reflexivity | rewrite app_cons; simpl; congruence].
Qed.




Lemma length_substring_le (n m : nat) (s : string) :
  (String.length (String.substring n m s) <= m)%nat.
Proof.
  revert n m. induction s as [|ch s IH]; intros [|n] [|m]; simpl; auto with arith.
  all: try (specialize (IH 0%nat m); lia).
Qed.


















(** ** Exit logging *)

(** C9 as stated fails: with the archival image and both CSV files present
    [log_errors] leaves through [sys.exit(0)] before it looks at the
    status, so a carried error is not printed; and when the image exists
    but the string CSV is missing, the image's line is printed in place of
    the missing file's. *)
Lemma carried_error_unreported_when_all_exist :
  log_errors true true true false "Cannot connect to inverter"
             "2021-09-11T20:00:00+01:00" some_world
  = (some_world, Stop (SystemExit 0)) /\
  printed some_world
    (fst (log_errors true true false false "OK"
                     "2021-09-11T20:00:00+01:00" some_world))
  = [diagnostic "2021-09-11T20:00:00+01:00" " Daily PNG already exists"].
Proof. split; reflexivity. Qed.

Lemma log_errors_unfold (png csv scsv first : bool) (status iso : string)
    (w : world) :
  log_errors png csv scsv first status iso w =
  if png && csv && scsv then (w, Stop (SystemExit 0))
  else ({| disk := disk w;
           stdout := stdout w ++ file_lines png csv scsv first iso
                              ++ status_lines status iso;
           requested := requested w; saved := saved w |}, Continue tt).
Proof.
  unfold log_errors, file_lines, status_lines, diagnostic.
  destruct w as [dk out rq sv].
  destruct png, csv, scsv, first, (String.eqb status "OK");
    unfold mbind, M_bind, Store.bind, mret, M_ret, Store.ret, when, print,
      sys_exit; simpl; rewrite ?app_nil_r, <- ?app_assoc; reflexivity.
Qed.

(** C9, amended: when the archival image and both CSV files exist the run
    leaves with status 0 and prints nothing, not even a carried error.
    Otherwise [log_errors] returns without aborting and touches no file; a
    status other than OK is printed as the last line, the run's timestamp
    and the status; with no archival image, a missing aggregate CSV on a
    non-first run, or else a missing string CSV on a non-first run, is
    printed as the first line; with an archival image that line says that
    the image exists instead. *)
Theorem log_errors_reports
    (png csv scsv first : bool) (status iso : string) (w : world) :
  disk (fst (log_errors png csv scsv first status iso w)) = disk w /\
  (png && csv && scsv = true ->
   log_errors png csv scsv first status iso w = (w, Stop (SystemExit 0))) /\
  (png && csv && scsv = false ->
   snd (log_errors png csv scsv first status iso w) = Continue tt /\
   (status <> "OK" ->
    last (printed w (fst (log_errors png csv scsv first status iso w)))
    = Some (diagnostic iso (" " +:+ status))) /\
   (status = "OK" ->
    printed w (fst (log_errors png csv scsv first status iso w))
    = file_lines png csv scsv first iso) /\
   (png = true ->
    head (printed w (fst (log_errors png csv scsv first status iso w)))
    = Some (diagnostic iso " Daily PNG already exists")) /\
   (png = false -> csv = false -> first = false ->
    head (printed w (fst (log_errors png csv scsv first status iso w)))
    = Some (diagnostic iso " Daily inverter CSV file is missing")) /\
   (png = false -> csv = true -> scsv = false -> first = false ->
    head (printed w (fst (log_errors png csv scsv first status iso w)))
    = Some (diagnostic iso " Daily string CSV file is missing"))).
Proof.
  rewrite log_errors_unfold.
  destruct (png && csv && scsv) eqn:Hall.
  - split; [reflexivity|]. split; [reflexivity|]. discriminate.
  - split; [reflexivity|]. split; [discriminate|]. intros _.
    unfold printed. simpl. rewrite drop_app_length.
    split; [reflexivity|].
    unfold status_lines.
    split; [|split; [|split; [|split]]].
    + intros Hne. destruct (String.eqb_spec status "OK") as [->|_];
        [congruence|]. apply last_snoc.
    + intros ->. simpl. apply app_nil_r.
    + intros ->. reflexivity.
    + intros -> -> ->. reflexivity.
    + intros -> -> -> ->. reflexivity.
Qed.

(** ** The power series transform *)

Lemma for_each_Forall2 {A B} (f : A -> result B) (xs : list A) (ys : list B) :
  for_each f xs = Ok ys <-> Forall2 (fun x y => f x = Ok y) xs ys.
Proof.
  revert ys. induction xs as [|x xs IH]; intros ys; simpl.
  - split.
    + intros [= <-]. constructor.
    + intros H. inversion H. reflexivity.
  - split.
    + destruct (f x) as [y|err] eqn:Hx; simpl; [|discriminate].
      destruct (for_each f xs) as [ys'|err] eqn:Hxs; simpl; [|discriminate].
      intros [= <-]. constructor; [assumption|]. apply IH. reflexivity.
    + intros H. inversion H as [|x' y xs' ys' Hx Hrest]; subst.
      rewrite Hx. simpl.
      apply IH in Hrest. rewrite Hrest. reflexivity.
Qed.

Lemma for_each_total {A B} (f : A -> result B) (g : A -> B) (xs : list A) :
  Forall (fun x => f x = Ok (g x)) xs -> for_each f xs = Ok (g <$> xs).
Proof.
  intros H. apply for_each_Forall2.
  induction H; simpl; constructor; auto.
Qed.

Lemma for_each_length {A B} (f : A -> result B) (xs : list A) (ys : list B) :
  for_each f xs = Ok ys -> length ys = length xs.
Proof.
  intros H. apply for_each_Forall2 in H.
  symmetry. eapply Forall2_length, H.
Qed.

Lemma int_of_float_finite (x : float) :
  is_finite x = true -> int_of_float x = Ok (trunc_SF (Prim2SF x)).
Proof.
  unfold is_finite, int_of_float. destruct (Prim2SF x); intros; try discriminate; reflexivity.
Qed.

Lemma int_of_float_inv (x : float) (n : Z) :
  int_of_float x = Ok n -> is_finite x = true /\ n = trunc_SF (Prim2SF x).
Proof.
  unfold is_finite, int_of_float.
  destruct (Prim2SF x); intros [= <-] || intros [=]; auto.
Qed.

Lemma local_timestamp_inv (today : string) (secs : Z) (ts : timestamp) :
  local_timestamp today secs = Ok ts ->
  within_day secs = true /\ ts = {| ts_day := today; ts_secs := secs |}.
Proof.
  unfold local_timestamp, within_day.
  destruct ((0 <=? secs) && (secs <? 86400)).
  - intros [= <-]. auto.
  - destruct (_ && _); discriminate.
Qed.

Lemma local_timestamp_within (today : string) (secs : Z) :
  within_day secs = true ->
  local_timestamp today secs = Ok {| ts_day := today; ts_secs := secs |}.
Proof. unfold local_timestamp, within_day. intros ->. reflexivity. Qed.

Lemma calculate_power_digestible (today : string) (pwrData : power_payload)
    (stringData : archive_payload) :
  digestible stringData = true ->
  calculate_power today pwrData stringData
  = Ok (transformed today pwrData stringData).
Proof.
  unfold digestible. intros H.
  apply andb_prop in H as [H1 H2].
  rewrite forallb_forall in H1, H2.
  unfold calculate_power.
  fold (string1_pairs stringData). fold (string2_pairs stringData).
  rewrite (for_each_total _
             (fun p => ({| ts_day := today; ts_secs := p.1.1 |}, truncated p))).
  2:{ apply List.Forall_forall. intros p Hp. specialize (H1 p Hp).
      apply andb_prop in H1 as [Hd Hf].
      unfold string1_step, watts_of.
      rewrite (local_timestamp_within _ _ Hd). simpl.
      fold (product p). rewrite (int_of_float_finite _ Hf). reflexivity. }
  rewrite (for_each_total _ truncated).
  2:{ apply List.Forall_forall. intros p Hp. specialize (H2 p Hp).
      unfold string2_step, watts_of. fold (product p).
      apply int_of_float_finite, H2. }
  simpl. unfold transformed.
  rewrite <- !list_fmap_compose. reflexivity.
Qed.

Lemma for_each_inv {A B} (f : A -> result B) (g : A -> B) (ok : A -> bool)
    (xs : list A) (ys : list B) :
  (forall x y, f x = Ok y -> ok x = true /\ y = g x) ->
  for_each f xs = Ok ys -> forallb ok xs = true /\ ys = g <$> xs.
Proof.
  intros Hf H. apply for_each_Forall2 in H.
  induction H as [|x y xs ys Hx _ [IH1 IH2]]; simpl; [auto|].
  destruct (Hf _ _ Hx) as [-> ->]. rewrite IH1, IH2. auto.
Qed.

Lemma calculate_power_inv (today : string) (pwrData : power_payload)
    (stringData : archive_payload) (p : power) :
  calculate_power today pwrData stringData = Ok p ->
  digestible stringData = true /\ p = transformed today pwrData stringData.
Proof.
  unfold calculate_power.
  fold (string1_pairs stringData). fold (string2_pairs stringData).
  destruct (for_each (string1_step today) (string1_pairs stringData))
    as [rows1|err] eqn:H1; simpl; [|discriminate].
  destruct (for_each string2_step (string2_pairs stringData))
    as [rows2|err] eqn:H2; simpl; [|discriminate].
  intros [= <-].
  apply (for_each_inv _
           (fun p => ({| ts_day := today; ts_secs := p.1.1 |}, truncated p))
           (fun p => within_day p.1.1 && is_finite (product p))) in H1.
  2:{ intros x [ts w]. unfold string1_step, watts_of. fold (product x).
      destruct (local_timestamp today x.1.1) as [ts'|err] eqn:Ht; simpl;
        [|discriminate].
      destruct (int_of_float (product x)) as [w'|err] eqn:Hw; simpl;
        [|discriminate].
      intros [= <- <-].
      apply local_timestamp_inv in Ht as [-> ->].
      apply int_of_float_inv in Hw as [-> ->]. auto. }
  apply (for_each_inv _ truncated (fun p => is_finite (product p))) in H2.
  2:{ intros x y. unfold string2_step, watts_of. fold (product x).
      intros Hw. apply int_of_float_inv in Hw as [-> ->]. auto. }
  destruct H1 as [Hok1 ->], H2 as [Hok2 ->].
  unfold digestible. rewrite Hok1, Hok2.
  split; [reflexivity|].
  unfold transformed. rewrite <- !list_fmap_compose. reflexivity.
Qed.

(** The series of a channel: sorted by key, strictly. *)
#[global] Instance key_le_transitive : Transitive key_le.
Proof. intros a b c. unfold key_le. lia. Qed.

#[global] Instance key_le_total : Total key_le.
Proof. intros a b. unfold key_le. lia. Qed.

Lemma series_ascending (c : channel) : StronglySorted key_lt (series c).
Proof.
  unfold series, sorted_items.
  assert (Hs : StronglySorted key_le (merge_sort key_le (map_to_list (to_dict c))))
    by apply (StronglySorted_merge_sort _).
  assert (Hn : NoDup (merge_sort key_le (map_to_list (to_dict c))).*1).
  { rewrite merge_sort_Permutation. apply NoDup_fst_map_to_list. }
  induction Hs as [|a l Hl IH Ha]; [constructor|].
  simpl in Hn. apply NoDup_cons in Hn as [Hnotin Hn].
  constructor; [apply IH, Hn|].
  rewrite List.Forall_forall in Ha |- *.
  intros b Hb. specialize (Ha b Hb).
  unfold key_le in Ha. unfold key_lt.
  assert (a.1 <> b.1).
  { intros Heq. apply Hnotin. rewrite Heq.
    apply list_elem_of_fmap. exists b. split; [reflexivity|].
    apply list_elem_of_In. exact Hb. }
  lia.
Qed.

(** The series holds exactly the items of the dictionary. *)
Lemma series_items (c : channel) (k : Z) (v : float) :
  (k, v) ∈ series c <-> to_dict c !! k = Some v.
Proof.
  unfold series, sorted_items.
  rewrite merge_sort_Permutation. apply elem_of_map_to_list.
Qed.

Lemma length_transformed (today : string) (pwrData : power_payload)
    (s : archive_payload) :
  let n1 := Nat.min (length (series (Current_DC_String_1 s)))
                    (length (series (Voltage_DC_String_1 s))) in
  let n2 := Nat.min (length (series (Current_DC_String_2 s)))
                    (length (series (Voltage_DC_String_2 s))) in
  length (timestampList (transformed today pwrData s)) = (n1 - 54)%nat /\
  length (str1watts (transformed today pwrData s)) = (n1 - 54)%nat /\
  length (str2watts (transformed today pwrData s)) = (n2 - 54)%nat.
Proof.
  simpl. unfold string1_pairs, string2_pairs.
  rewrite !length_drop, !length_fmap, !length_zip. auto.
Qed.

(** ** What a computation leaves alone *)

Lemma keeps_preserves {A B} (g : world -> B) (c : M A) :
  keeps g c <-> forall x, preserves (fun w => g w = x) c.
Proof.
  split.
  - intros H x w Hw. rewrite H. exact Hw.
  - intros H w. apply (H (g w)). reflexivity.
Qed.

Lemma preserves_bind {A B} (P : world -> Prop) (c : M A) (k : A -> M B) :
  preserves P c -> (forall a, preserves P (k a)) -> preserves P (c ≫= k).
Proof.
  intros Hc Hk w Hw. rewrite run_bind.
  specialize (Hc w Hw). destruct (c w) as [w' [a|s]]; simpl in *.
  - apply Hk, Hc.
  - exact Hc.
Qed.

Lemma preserves_ret {A} (P : world -> Prop) (a : A) : preserves P (mret a : M A).
Proof. intros w Hw. exact Hw. Qed.

Lemma preserves_lift {A} (P : world -> Prop) (r : result A) : preserves P (lift r).
Proof. intros w Hw. destruct r; exact Hw. Qed.

Lemma preserves_when (P : world -> Prop) (b : bool) (c : M unit) :
  (b = true -> preserves P c) -> preserves P (when b c).
Proof. destruct b; intros H; [apply H; reflexivity | intros w Hw; exact Hw]. Qed.

Ltac preserves_step :=
  match goal with
  | |- preserves _ (_ ≫= _) => apply preserves_bind; [|intros]
  | |- preserves _ (when _ _) => apply preserves_when; intros
  | |- preserves _ (lift _) => apply preserves_lift
  | |- preserves _ (mret _) => apply preserves_ret
  | |- preserves _ get_disk => intros ? ?; assumption
  | |- preserves _ (sys_exit _) => intros ? ?; assumption
  | |- preserves _ (if ?b then _ else _) => destruct b
  | |- preserves _ (let '(_, _) := ?p in _) => destruct p
  | H : _ |- preserves _ _ => solve [apply H; auto]
  | |- preserves _ _ => solve [intros ? ?; assumption]
  end.

Ltac preserves_auto := repeat preserves_step.

(** The blocks of the script touch the world only through [print],
    [request], [savefig] and the updates of the four text files, so a
    property those maintain is maintained by the block. *)
Section Maintained.
Variable round : float -> Z -> float.
Variable P : world -> Prop.

Lemma log_errors_preserves png csv scsv first status iso :
  (forall s, preserves P (print s)) ->
  preserves P (log_errors png csv scsv first status iso).
Proof. intros Hp. unfold log_errors. preserves_auto. Qed.

Lemma draw_graph_preserves test err eod watts :
  (forall fig, preserves P (savefig Live fig)) ->
  (eod = true -> forall fig, preserves P (savefig Archive fig)) ->
  preserves P (draw_graph round test err eod watts).
Proof. intros Hl Ha. unfold draw_graph. preserves_auto. Qed.

Lemma finalize_block_preserves c test hist watts :
  (forall fig, preserves P (savefig Live fig)) ->
  (forall fig, preserves P (savefig Archive fig)) ->
  (forall h, preserves P (modify_disk (fun f => set_SUMMARYCSV (h f) f))) ->
  (forall v, preserves P (modify_disk (set_HISTORYHTML v))) ->
  preserves P (finalize_block round c test hist watts).
Proof.
  intros Hl Ha Hs Hh. unfold finalize_block. preserves_auto.
  apply draw_graph_preserves; auto.
Qed.

Lemma daytime_block_preserves c net test eod csv first :
  (forall url, preserves P (request url)) ->
  (forall h, preserves P (modify_disk (fun f => set_dailyCsv (h f) f))) ->
  (forall v, preserves P (modify_disk (set_stringCsv v))) ->
  (forall fig, preserves P (savefig Live fig)) ->
  (eod = true -> forall fig, preserves P (savefig Archive fig)) ->
  preserves P (daytime_block round c net test eod csv first).
Proof.
  intros Hr Hd Hs Hl Ha. unfold daytime_block. preserves_auto.
  apply draw_graph_preserves; auto.
Qed.
End Maintained.

(** An effect that does not change what [g] observes. *)
Ltac unobserved := intros; intros ? ?; assumption.

(** ** The end-of-day guard *)

Lemma archived_spec (w : world) : archived w = false <-> Archive ∉ saved w.
Proof.
  unfold archived. split.
  - intros H Hin. apply list_elem_of_In in Hin.
    assert (existsb is_archive (saved w) = true)
      by (apply existsb_exists; exists Archive; auto).
    congruence.
  - intros H. destruct (existsb is_archive (saved w)) eqn:He; [|reflexivity].
    apply existsb_exists in He as [[|] [Hin Hx]]; try discriminate.
    exfalso. apply H, list_elem_of_In, Hin.
Qed.

Lemma savefig_live_keeps_archived fig x :
  preserves (fun w => archived w = x) (savefig Live fig).
Proof.
  intros w. unfold archived. simpl. rewrite existsb_app. simpl.
  rewrite !orb_false_r. auto.
Qed.

Lemma end_of_day_archived c csv scsv fd :
  end_of_day c true csv scsv fd false = false.
Proof.
  unfold end_of_day. destruct (timeNow c >? sunset c); reflexivity.
Qed.

(** With the archival image in place and end of day not forced, a run only
    reaches what the daytime block and the exit logging do. *)
Lemma blocks_preserves_when_archived (P : world -> Prop)
    (round : float -> Z -> float) c net test fd f :
  (forall s, preserves P (print s)) ->
  (forall url, preserves P (request url)) ->
  (forall h, preserves P (modify_disk (fun f => set_dailyCsv (h f) f))) ->
  (forall v, preserves P (modify_disk (set_stringCsv v))) ->
  (forall fig, preserves P (savefig Live fig)) ->
  exists_ (dailyPng f) = true ->
  preserves P (blocks round c net test fd false false f).
Proof.
  intros Hp Hr Hd Hs Hl Hpng. unfold blocks. rewrite Hpng.
  preserves_auto.
  - apply daytime_block_preserves; auto. discriminate.
  - rewrite end_of_day_archived in *. discriminate.
  - apply log_errors_preserves; auto.
Qed.

(** C2: when today's archival image exists at the start of a run and end
    of day is not forced, the run appends no row to the summary CSV, does
    not save the archival image and leaves the index document as it is,
    whatever else it does and however it ends. *)
Theorem no_finalize_write_once_archived
    (round : float -> Z -> float) (a : args) (c : clock) (net : inverter)
    (f : files) :
  exists_ (dailyPng f) = true ->
  e a = false ->
  SUMMARYCSV (disk (fst (run round a c net f))) = SUMMARYCSV f /\
  dailyPng (disk (fst (run round a c net f))) = dailyPng f /\
  (Archive ∉ saved (fst (run round a c net f))) /\
  HISTORYHTML (disk (fst (run round a c net f))) = HISTORYHTML f.
Proof.
  intros Hpng He. rewrite run_blocks, He.
  assert (Hkeep : forall (B : Type) (g : world -> B),
             (forall s, keeps g (print s)) ->
             (forall url, keeps g (request url)) ->
             (forall h, keeps g (modify_disk (fun f => set_dailyCsv (h f) f))) ->
             (forall v, keeps g (modify_disk (set_stringCsv v))) ->
             (forall fig, keeps g (savefig Live fig)) ->
             keeps g (blocks round c net (t a) (d a) false false f)).
  { intros B g Hp Hr Hd Hs Hl. apply keeps_preserves. intros x.
    apply blocks_preserves_when_archived; auto;
      intros; apply keeps_preserves; auto. }
  repeat split.
  - apply (Hkeep _ (fun w => SUMMARYCSV (disk w))); intros; intros ?; reflexivity.
  - apply (Hkeep _ (fun w => dailyPng (disk w))); intros; intros ?; reflexivity.
  - apply archived_spec.
    assert (Hk : keeps archived (blocks round c net (t a) (d a) false false f)).
    { apply Hkeep; try (intros; intros ?; reflexivity).
      intros fig. apply keeps_preserves. intros x.
      apply savefig_live_keeps_archived. }
    rewrite Hk. reflexivity.
  - apply (Hkeep _ (fun w => HISTORYHTML (disk w))); intros; intros ?; reflexivity.
Qed.

(** ** Daytime runs *)

Lemma daytime_block_answered (round : float -> Z -> float) c net test eod
    csv first pwr arch p w :
  power_reply net = Response pwr ->
  archive_reply net = Response arch ->
  calculate_power (today c) pwr arch = Ok p ->
  daytime_block round c net test eod csv first w
  = (when (csv && negb first)
          (draw_graph round test Script.ERRORSTATUS eod (Some (watts p));;
           mret tt);;
     mret ("OK", Some (watts p))) (sampled c p w).
Proof.
  intros Hp Ha Hc. unfold daytime_block. rewrite Hp, Ha.
  match goal with |- _ = ?r => set (rhs := r) end.
  do 4 (rewrite run_bind; simpl).
  rewrite run_bind, Hc. simpl.
  do 2 (rewrite run_bind; simpl).
  subst rhs. unfold sampled, string_rows. rewrite <- app_assoc. reflexivity.
Qed.

(** ** What [draw_graph] does *)

Section DrawGraph.
Variable round : float -> Z -> float.

(** With at least two aggregate rows and at least one string row on disk
    the chart is drawn. *)
Lemma draw_graph_drawn test err eod watts w rows srows :
  dailyCsv (disk w) = Some rows -> (2 <= length rows)%nat ->
  stringCsv (disk w) = Some srows -> srows <> [] ->
  (eod = false -> is_Some watts) ->
  draw_graph round test err eod watts w
  = (drawn eod (chart round test err eod watts rows srows) w,
     Continue (energy_kWh round (total_watts rows), peak_watts rows)).
Proof.
  intros Hrows Hlen Hsrows Hne Hw.
  destruct rows as [|r1 [|r2 rows]]; simpl in Hlen; try lia.
  destruct srows as [|s1 srows]; [congruence|].
  unfold draw_graph. rewrite run_bind. simpl. rewrite Hrows.
  rewrite run_bind. simpl. rewrite run_bind. simpl.
  rewrite Hsrows.
  assert (Hcur : eod = true \/ exists x, eod = false /\ watts = Some x).
  { destruct eod; [left; reflexivity|].
    right. destruct Hw as [x ->]; eauto. }
  unfold drawn, chart, total_watts, peak_watts.
  destruct Hcur as [-> | (x & -> & ->)];
    destruct srows, w; do 6 (try rewrite run_bind; simpl);
    rewrite <- ?app_assoc; reflexivity.
Qed.

(** An aggregate file of fewer than two rows cannot be drawn: nothing is
    saved and the call ends in an exception. *)
Lemma draw_graph_short test err eod watts w rows :
  dailyCsv (disk w) = Some rows -> (length rows < 2)%nat ->
  draw_graph round test err eod watts w
  = (w, Stop (Exception (match rows with
                         | [] => IndexError
                         | _ => TypeError
                         end))).
Proof.
  intros Hrows Hlen.
  destruct rows as [|r1 [|r2 rows]]; simpl in Hlen; try lia;
    unfold draw_graph; rewrite run_bind; simpl; rewrite Hrows; reflexivity.
Qed.

(** [draw_graph] never leaves through [sys.exit], and when it returns it
    has saved the live image. *)
Lemma draw_graph_outcome test err eod watts w :
  match draw_graph round test err eod watts w with
  | (w', Continue _) => Live ∈ saved w'
  | (_, Stop s) => exists x, s = Exception x
  end.
Proof.
  unfold draw_graph. rewrite run_bind. simpl.
  destruct (genfromtxt (dailyCsv (disk w))) as [data|x]; simpl; [|eauto].
  rewrite run_bind. simpl.
  destruct (py_max (field snd data)) as [m|x]; simpl; [|eauto].
  rewrite run_bind. simpl.
  destruct (genfromtxt (stringCsv (disk w))) as [sdata|x]; simpl; [|eauto].
  rewrite run_bind. simpl.
  destruct (py_sum (field snd data)) as [total|x]; simpl; [|eauto].
  rewrite run_bind.
  destruct eod; simpl.
  - apply elem_of_app. left. apply elem_of_app. right. constructor.
  - destruct watts; simpl; [|eauto].
    apply elem_of_app. right. constructor.
Qed.
End DrawGraph.

Lemma int64_add_exact (a b : Z) :
  in_int64 (a + b) = true -> int64_add a b = a + b.
Proof.
  unfold in_int64, int64_add. intros H.
  apply andb_prop in H as [Hlo Hhi].
  apply Z.leb_le in Hlo. apply Z.ltb_lt in Hhi.
  rewrite Z.mod_small by lia. lia.
Qed.

Lemma running_sums_exact (xs : list Z) (acc : Z) :
  running_sums_fit acc xs = true -> foldl int64_add acc xs = foldl Z.add acc xs.
Proof.
  revert acc. induction xs as [|x xs IH]; intros acc; simpl; [reflexivity|].
  intros H. apply andb_prop in H as [H Hrest].
  apply andb_prop in H as [_ Hsum].
  rewrite (int64_add_exact _ _ Hsum). apply IH, Hrest.
Qed.

Lemma total_watts_exact (rows : list (string * Z)) :
  fits_int64 rows = true -> total_watts rows = foldl Z.add 0 (snd <$> rows).
Proof. apply running_sums_exact. Qed.

(** C3 as stated fails for the empty and the single-sample series: the
    claim has the total of an empty series be 0.0, but [draw_graph] reads
    the series with [genfromtxt] and takes [max] of it before it sums, so
    on an aggregate file without rows, and on one with a single row, the
    call ends in an exception and no total is computed.  It also fails
    where the sum leaves the int64 range: two values adding up to 2^63
    give a total below zero. *)
Lemma no_total_for_empty_series :
  draw_graph Sample.round_decimals false "OK" true None (world_with empty_day)
  = (world_with empty_day, Stop (Exception IndexError)) /\
  draw_graph Sample.round_decimals false "OK" true None
             (world_with one_sample_day)
  = (world_with one_sample_day, Stop (Exception TypeError)) /\
  snd (draw_graph Sample.round_decimals false "OK" true None
                  (world_with wrapping_day))
  = Continue (energy_kWh Sample.round_decimals (- 2 ^ 63), 2 ^ 63 - 1) /\
  PrimFloat.ltb (energy_kWh Sample.round_decimals (- 2 ^ 63)) 0 = true /\
  PrimFloat.ltb 0 (energy_kWh Sample.round_decimals (2 ^ 63)) = true.
Proof. repeat split; vm_compute; reflexivity. Qed.

(** C3, amended: for an aggregate series of at least two samples read back
    at rendering time, whose values and running sums are values an int64
    holds (the string CSV holding at least one row), the total [draw_graph]
    computes and returns is the sum of the watts divided by 60 and by 1000
    and rounded to 2 places. *)
Theorem energy_total_of_series
    (round : float -> Z -> float) (test : bool) (err : string) (eod : bool)
    (watts : option Z) (w : world)
    (rows : list (string * Z)) (srows : list (timestamp * Z * Z)) :
  dailyCsv (disk w) = Some rows -> (2 <= length rows)%nat ->
  fits_int64 rows = true ->
  stringCsv (disk w) = Some srows -> srows <> [] ->
  (eod = false -> is_Some watts) ->
  exists (w' : world) (maxPwr : Z),
    draw_graph round test err eod watts w
    = (w',
       Continue
         (round (PrimFloat.div
                   (PrimFloat.div (float_of_Z (foldl Z.add 0 (snd <$> rows))) 60)
                   1000) 2,
          maxPwr)) /\
    (generated_kWh <$> LIVEIMAGE (disk w'))
    = Some (round (PrimFloat.div
                     (PrimFloat.div (float_of_Z (foldl Z.add 0 (snd <$> rows))) 60)
                     1000) 2).
Proof.
  intros Hrows Hlen Hfit Hsrows Hne Hw.
  rewrite (draw_graph_drawn round test err eod watts w rows srows) by assumption.
  rewrite <- (total_watts_exact rows Hfit).
  eexists; eexists. split; [reflexivity|].
  destruct eod; reflexivity.
Qed.

Lemma energy_total_of_series_witness :
  exists (w' : world) (maxPwr : Z),
    draw_graph Sample.round_decimals false "OK" true None
               (world_with Sample.started)
    = (w',
       Continue
         (Sample.round_decimals
            (PrimFloat.div (PrimFloat.div (float_of_Z 2000) 60) 1000) 2,
          maxPwr)) /\
    (generated_kWh <$> LIVEIMAGE (disk w'))
    = Some (Sample.round_decimals
              (PrimFloat.div (PrimFloat.div (float_of_Z 2000) 60) 1000) 2).
Proof.
  apply (energy_total_of_series Sample.round_decimals false "OK" true None
           (world_with Sample.started)
           [("2021-09-11T10:00:00+01:00", 900);
            ("2021-09-11T10:01:00+01:00", 1100)]
           [(Sample.stamp 16200, 400, 500)]).
  - reflexivity.
  - simpl. lia.
  - reflexivity.
  - reflexivity.
  - discriminate.
  - discriminate.
Defined.

(** ** The rest of a run after a sample was taken *)

Section AfterSample.
Variable round : float -> Z -> float.

Lemma blocks_answered c net test fd fe eod f pwr arch p w :
  daytime c fd fe = true ->
  power_reply net = Response pwr ->
  archive_reply net = Response arch ->
  calculate_power (today c) pwr arch = Ok p ->
  blocks round c net test fd fe eod f w
  = after_sample round c test fd fe eod f p (sampled c p w).
Proof.
  intros Hday Hp Ha Hc. unfold blocks, after_sample.
  rewrite Hday, run_bind.
  rewrite (daytime_block_answered round c net test eod _ _ pwr arch p w Hp Ha Hc).
  destruct (exists_ (dailyCsv f)); simpl.
  - rewrite !run_bind.
    destruct (draw_graph round test Script.ERRORSTATUS eod (Some (watts p))
                         (sampled c p w)) as [w' [r|s]]; reflexivity.
  - reflexivity.
Qed.

Lemma after_sample_preserves (P : world -> Prop) c test fd fe eod f p :
  (forall s, preserves P (print s)) ->
  (forall fig, preserves P (savefig Live fig)) ->
  (forall fig, preserves P (savefig Archive fig)) ->
  (forall h, preserves P (modify_disk (fun f => set_SUMMARYCSV (h f) f))) ->
  (forall v, preserves P (modify_disk (set_HISTORYHTML v))) ->
  preserves P (after_sample round c test fd fe eod f p).
Proof.
  intros Hp Hl Ha Hs Hh. unfold after_sample. preserves_auto.
  - apply draw_graph_preserves; auto.
  - apply finalize_block_preserves; auto.
  - apply log_errors_preserves; auto.
Qed.
End AfterSample.

Lemma fst_zip_prefix {A B} (l : list A) (k : list B) :
  (zip l k).*1 = take (length k) l.
Proof.
  revert k. induction l as [|x l IH]; intros [|y k]; simpl; try reflexivity.
  rewrite IH. reflexivity.
Qed.

Lemma snd_zip_prefix {A B} (l : list A) (k : list B) :
  (zip l k).*2 = take (length l) k.
Proof.
  revert k. induction l as [|x l IH]; intros [|y k]; simpl; try reflexivity.
  rewrite IH. reflexivity.
Qed.

Lemma take_same_prefix {A} (l : list A) (n m : nat) :
  Nat.min n (length l) = Nat.min m (length l) -> take n l = take m l.
Proof.
  revert n m. induction l as [|x l IH]; intros [|n] [|m]; simpl;
    try reflexivity; try discriminate.
  intros [= H]. rewrite (IH n m H). reflexivity.
Qed.

(** C10: after a daytime run in which both requests were answered and the
    transform returned, the string CSV holds exactly the rows of
    [zip(zip(timestampList, str1watts), str2watts)]: as many as the
    shortest of the three lists has entries, each list cut to that common
    prefix, whatever the run does afterwards. *)
Theorem string_csv_holds_common_prefix
    (round : float -> Z -> float) (a : args) (c : clock) (net : inverter)
    (f : files) (pwr : power_payload) (arch : archive_payload) (p : power) :
  daytime c (d a) (e a) = true ->
  power_reply net = Response pwr ->
  archive_reply net = Response arch ->
  calculate_power (today c) pwr arch = Ok p ->
  exists rows : list (timestamp * Z * Z),
    stringCsv (disk (fst (run round a c net f))) = Some rows /\
    length rows = Nat.min (length (timestampList p))
                    (Nat.min (length (str1watts p)) (length (str2watts p))) /\
    rows.*1.*1 = take (length rows) (timestampList p) /\
    rows.*1.*2 = take (length rows) (str1watts p) /\
    rows.*2 = take (length rows) (str2watts p).
Proof.
  intros Hday Hp Ha Hc.
  exists (string_rows p). split; [|split; [|split; [|split]]].
  - rewrite run_blocks.
    rewrite (blocks_answered round c net _ _ _ _ f pwr arch p _ Hday Hp Ha Hc).
    apply (after_sample_preserves round
             (fun w => stringCsv (disk w) = Some (string_rows p)));
      try unobserved.
    reflexivity.
  - unfold string_rows. rewrite !length_zip. lia.
  - unfold string_rows. rewrite !length_zip.
    rewrite !fst_zip_prefix, fmap_take, fst_zip_prefix, take_take.
    apply take_same_prefix. lia.
  - unfold string_rows. rewrite !length_zip.
    rewrite fst_zip_prefix, fmap_take, snd_zip_prefix, take_take.
    apply take_same_prefix. lia.
  - unfold string_rows. rewrite !length_zip.
    rewrite snd_zip_prefix, length_zip.
    apply take_same_prefix. lia.
Qed.

Lemma run_bind_assoc {A B C} (c : M A) (k1 : A -> M B) (k2 : B -> M C)
    (w : world) :
  ((c ≫= k1) ≫= k2) w = (c ≫= fun a => k1 a ≫= k2) w.
Proof. rewrite !run_bind. destruct (c w) as [w' [a|s]]; reflexivity. Qed.

Lemma when_true (c : M unit) : when true c = c.
Proof. reflexivity. Qed.

Lemma when_false (c : M unit) : when false c = mret tt.
Proof. reflexivity. Qed.

Lemma savefig_keeps_live name fig :
  preserves (fun w => Live ∈ saved w) (savefig name fig).
Proof. intros w Hw. simpl. apply elem_of_app. left. exact Hw. Qed.


(** ** The daytime gate *)

Lemma bind_keeps_tail {A B C} (g : world -> C) (c : M A) (k : A -> M B)
    (w : world) :
  (forall a, keeps g (k a)) -> g (fst ((c ≫= k) w)) = g (fst (c w)).
Proof.
  intros Hk. rewrite run_bind.
  destruct (c w) as [w' [a|s]]; simpl; [apply Hk | reflexivity].
Qed.

Section Gate.
Variable round : float -> Z -> float.

(** The daytime block asks for the instantaneous power first and, once
    that was answered, for the archive; nothing else is requested. *)
Lemma daytime_block_requested c net test eod csv first w :
  requested (fst (daytime_block round c net test eod csv first w))
  = requested w ++
    powerApiUrl ::
    (if answered (power_reply net) then [stringApiUrl (today c)] else []).
Proof.
  unfold daytime_block. rewrite run_bind. simpl.
  rewrite run_bind.
  destruct (power_reply net) as [pwr| | | |]; simpl; try reflexivity.
  rewrite run_bind. simpl.
  rewrite bind_keeps_tail.
  - destruct (call_inverter _ _); simpl; rewrite <- app_assoc; reflexivity.
  - intros [stringData status]. apply keeps_preserves. intros x.
    preserves_auto.
    apply draw_graph_preserves; unobserved.
Qed.

(** Outside the daytime window nothing but the end-of-day block and the
    exit logging runs. *)
Lemma blocks_preserves_outside_daytime (P : world -> Prop)
    c net test fd fe eod f :
  daytime c fd fe = false ->
  (forall s, preserves P (print s)) ->
  (forall fig, preserves P (savefig Live fig)) ->
  (forall fig, preserves P (savefig Archive fig)) ->
  (forall h, preserves P (modify_disk (fun f => set_SUMMARYCSV (h f) f))) ->
  (forall v, preserves P (modify_disk (set_HISTORYHTML v))) ->
  preserves P (blocks round c net test fd fe eod f).
Proof.
  intros Hday Hp Hl Ha Hs Hh. unfold blocks. rewrite Hday.
  preserves_auto.
  - apply finalize_block_preserves; auto.
  - apply log_errors_preserves; auto.
Qed.

(** With neither test true only the exit logging runs. *)
Lemma blocks_preserves_idle (P : world -> Prop) c net test fd fe eod f :
  daytime c fd fe = false ->
  end_of_day c (exists_ (dailyPng f)) (exists_ (dailyCsv f))
             (exists_ (stringCsv f)) fd fe = false ->
  (forall s, preserves P (print s)) ->
  preserves P (blocks round c net test fd fe eod f).
Proof.
  intros Hday Heod Hp. unfold blocks. rewrite Hday, Heod.
  preserves_auto.
  - discriminate.
  - apply log_errors_preserves; auto.
Qed.
End Gate.

(** C6 as stated fails in its last part: after sunset, with both CSV files
    on disk and no archival image, the daytime test is false and yet the
    run draws: the end-of-day block calls [draw_graph], which saves the
    live image before the archival one. *)
Lemma live_image_saved_outside_daytime :
  daytime (Sample.at_time 70000) (d Sample.no_flags) (e Sample.no_flags)
  = false /\
  saved (fst (run Sample.round_decimals Sample.no_flags (Sample.at_time 70000)
                  (Sample.answering 56 55 2.5) Sample.started))
  = [Live; Archive] /\
  LIVEIMAGE (disk (fst (run Sample.round_decimals Sample.no_flags
                            (Sample.at_time 70000)
                            (Sample.answering 56 55 2.5) Sample.started)))
  <> LIVEIMAGE Sample.started.
Proof.
  split; [reflexivity|]. split; [reflexivity|].
  vm_compute. discriminate.
Qed.

(** C6, amended: the daytime block runs exactly when now is strictly
    between sunrise and sunset with end of day not forced, or daytime is
    forced.  When it runs the inverter is asked for the instantaneous power
    first; when it does not, no request is made and the aggregate and
    string CSV files are left alone, and nothing at all is drawn or written
    unless the end-of-day block fires, whose chart is also saved as the
    live image. *)
Theorem daytime_gate
    (round : float -> Z -> float) (a : args) (c : clock) (net : inverter)
    (f : files) :
  (daytime c (d a) (e a) = true <->
   (sunrise c < timeNow c /\ timeNow c < sunset c /\ e a = false)
   \/ d a = true) /\
  (daytime c (d a) (e a) = true ->
   requested (fst (run round a c net f))
   = powerApiUrl ::
     (if answered (power_reply net) then [stringApiUrl (today c)] else [])) /\
  (daytime c (d a) (e a) = false ->
   requested (fst (run round a c net f)) = [] /\
   dailyCsv (disk (fst (run round a c net f))) = dailyCsv f /\
   stringCsv (disk (fst (run round a c net f))) = stringCsv f /\
   (end_of_day c (exists_ (dailyPng f)) (exists_ (dailyCsv f))
               (exists_ (stringCsv f)) (d a) (e a) = false ->
    saved (fst (run round a c net f)) = [] /\
    disk (fst (run round a c net f)) = f)).
Proof.
  split; [|split].
  - unfold daytime.
    rewrite orb_true_iff, !andb_true_iff, negb_true_iff.
    rewrite Z.gtb_lt, Z.ltb_lt. tauto.
  - intros Hday. rewrite run_blocks. unfold blocks. rewrite Hday.
    rewrite bind_keeps_tail.
    + apply daytime_block_requested.
    + intros [status watts]. apply keeps_preserves. intros x.
      preserves_auto.
      * apply finalize_block_preserves; unobserved.
      * apply log_errors_preserves; unobserved.
  - intros Hday. rewrite run_blocks.
    split; [|split; [|split]].
    + apply (blocks_preserves_outside_daytime round
               (fun w => requested w = [])); auto; try unobserved.
    + apply (blocks_preserves_outside_daytime round
               (fun w => dailyCsv (disk w) = dailyCsv f)); auto; try unobserved.
    + apply (blocks_preserves_outside_daytime round
               (fun w => stringCsv (disk w) = stringCsv f)); auto; try unobserved.
    + intros Heod. split.
      * apply (blocks_preserves_idle round (fun w => saved w = []));
          auto; try unobserved.
      * apply (blocks_preserves_idle round (fun w => disk w = f));
          auto; try unobserved.
Qed.

(** ** The transform's results *)

Lemma trunc_is_floor_nonneg (x : float) :
  is_nonneg x = true -> trunc_SF (Prim2SF x) = floor_SF (Prim2SF x).
Proof.
  unfold is_nonneg. destruct (Prim2SF x) as [s| s| |s m e]; try reflexivity.
  destruct s; simpl; [discriminate|]. intros _.
  destruct (0 <=? e); reflexivity.
Qed.

Lemma to_dict_list_to_map (c : channel) :
  to_dict c = list_to_map (reverse c).
Proof.
  unfold to_dict. induction c as [|kv c IH] using rev_ind; [reflexivity|].
  rewrite foldl_app, reverse_app. simpl. rewrite IH.
  destruct kv; reflexivity.
Qed.

(** When the keys of a channel are distinct, its series is the channel's
    items put in order. *)
Lemma series_permutation (c : channel) : NoDup c.*1 -> series c ≡ₚ c.
Proof.
  intros Hnd. unfold series, sorted_items.
  rewrite merge_sort_Permutation, to_dict_list_to_map.
  rewrite map_to_list_to_map.
  - apply reverse_Permutation.
  - rewrite fmap_reverse, reverse_Permutation. exact Hnd.
Qed.

(** C4 as stated fails on a negative product: with a current of -0.5 and a
    voltage of 3 the 55th sample is [int(-1.5)], which is -1, where the
    floor of the product is -2. *)
Lemma negative_product_not_floored :
  calculate_power "2021-09-11" Sample.reading (Sample.archive 55 55 (-0.5))
  = Ok {| watts := 1200; timestampList := [Sample.stamp 16200];
          str1watts := [-1]; str2watts := [-1] |} /\
  floored <$> drop 54 (string1_pairs (Sample.archive 55 55 (-0.5))) = [-2].
Proof. split; vm_compute; reflexivity. Qed.

(** C4, amended: on an archive whose paired samples have finite products
    (and string-1 offsets within the day), the transform returns; each
    string's current and voltage series are in strictly ascending order of
    seconds since midnight and are paired by position; each watt value is
    the product cut to an integer toward zero, which is its floor whenever
    the product is not negative; and each string's watt sequence has the
    length of the shorter of its two series minus 54, and is empty when that
    length is at most 54. *)
Theorem watts_truncated_and_trimmed
    (today : string) (pwrData : power_payload) (s : archive_payload) :
  digestible s = true ->
  exists p : power,
    calculate_power today pwrData s = Ok p /\
    str1watts p = drop 54 (truncated <$> string1_pairs s) /\
    str2watts p = drop 54 (truncated <$> string2_pairs s) /\
    (forall q, is_nonneg (product q) = true -> truncated q = floored q) /\
    length (str1watts p)
    = trimmed_length (Current_DC_String_1 s) (Voltage_DC_String_1 s) /\
    length (str2watts p)
    = trimmed_length (Current_DC_String_2 s) (Voltage_DC_String_2 s) /\
    (forall c : channel, StronglySorted key_lt (series c)) /\
    (forall c : channel, NoDup c.*1 -> length (series c) = length c).
Proof.
  intros Hs. exists (transformed today pwrData s).
  split; [apply calculate_power_digestible, Hs|].
  split; [reflexivity|]. split; [reflexivity|].
  split; [intros q; apply trunc_is_floor_nonneg|].
  destruct (length_transformed today pwrData s) as (_ & H1 & H2).
  split; [exact H1|]. split; [exact H2|].
  split; [apply series_ascending|].
  intros c Hc. apply Permutation_length, series_permutation, Hc.
Qed.

Lemma watts_truncated_and_trimmed_witness :
  exists p : power,
    calculate_power "2021-09-11" Sample.reading (Sample.archive 56 55 2.5)
    = Ok p /\
    str1watts p = [7; 7] /\ str2watts p = [7].
Proof.
  destruct (watts_truncated_and_trimmed "2021-09-11" Sample.reading
              (Sample.archive 56 55 2.5)) as (p & Hp & H1 & H2 & _).
  - vm_compute. reflexivity.
  - exists p. split; [exact Hp|]. rewrite H1, H2.
    split; vm_compute; reflexivity.
Defined.

(** C5 as stated fails when the two strings have different numbers of
    samples: with 60 paired samples for string 1 and 55 for string 2 the
    transform returns 6 timestamps, 6 string-1 values and 1 string-2
    value. *)
Lemma unequal_strings_unequal_lengths :
  exists p : power,
    calculate_power "2021-09-11" Sample.reading (Sample.archive 60 55 2.5)
    = Ok p /\
    length (timestampList p) = 6%nat /\
    length (str1watts p) = 6%nat /\
    length (str2watts p) = 1%nat.
Proof.
  eexists. split; [vm_compute; reflexivity|].
  repeat split.
Qed.

(** C5, amended: the timestamps and the string-1 watts always have the
    same length, that of string 1's paired samples minus 54; the string-2
    watts have the length of string 2's paired samples minus 54, which is
    the same only when the two trimmed lengths agree. *)
Theorem timestamps_follow_string1
    (today : string) (pwrData : power_payload) (s : archive_payload) :
  digestible s = true ->
  exists p : power,
    calculate_power today pwrData s = Ok p /\
    length (timestampList p) = length (str1watts p) /\
    length (str1watts p)
    = trimmed_length (Current_DC_String_1 s) (Voltage_DC_String_1 s) /\
    length (str2watts p)
    = trimmed_length (Current_DC_String_2 s) (Voltage_DC_String_2 s) /\
    (length (str2watts p) = length (str1watts p) <->
     trimmed_length (Current_DC_String_2 s) (Voltage_DC_String_2 s)
     = trimmed_length (Current_DC_String_1 s) (Voltage_DC_String_1 s)).
Proof.
  intros Hs. exists (transformed today pwrData s).
  split; [apply calculate_power_digestible, Hs|].
  destruct (length_transformed today pwrData s) as (H0 & H1 & H2).
  unfold trimmed_length. rewrite H0, H1, H2. tauto.
Qed.

Lemma timestamps_follow_string1_witness :
  exists p : power,
    calculate_power "2021-09-11" Sample.reading (Sample.archive 60 55 2.5)
    = Ok p /\
    length (timestampList p) = length (str1watts p).
Proof.
  destruct (timestamps_follow_string1 "2021-09-11" Sample.reading
              (Sample.archive 60 55 2.5)) as (p & Hp & H1 & _).
  - vm_compute. reflexivity.
  - exists p. split; assumption.
Defined.

(** ** Instances on the sample day *)

Lemma no_finalize_write_once_archived_witness :
  SUMMARYCSV (disk (fst (run Sample.round_decimals Sample.no_flags
                             (Sample.at_time 70000)
                             (Sample.answering 56 55 2.5) archived_day)))
  = SUMMARYCSV archived_day /\
  HISTORYHTML (disk (fst (run Sample.round_decimals Sample.no_flags
                              (Sample.at_time 70000)
                              (Sample.answering 56 55 2.5) archived_day)))
  = HISTORYHTML archived_day.
Proof.
  destruct (no_finalize_write_once_archived Sample.round_decimals
              Sample.no_flags (Sample.at_time 70000)
              (Sample.answering 56 55 2.5) archived_day)
    as (Hs & _ & _ & Hh).
  - reflexivity.
  - reflexivity.
  - split; assumption.
Defined.

Lemma string_csv_holds_common_prefix_witness :
  exists rows : list (timestamp * Z * Z),
    stringCsv (disk (fst (run Sample.round_decimals Sample.no_flags
                              (Sample.at_time 36000)
                              (Sample.answering 60 56 2.5) Sample.started)))
    = Some rows /\
    length rows = Nat.min (length (timestampList morning_power))
                    (Nat.min (length (str1watts morning_power))
                             (length (str2watts morning_power))) /\
    length rows = 2%nat /\
    length (timestampList morning_power) = 6%nat.
Proof.
  destruct (string_csv_holds_common_prefix Sample.round_decimals
              Sample.no_flags (Sample.at_time 36000)
              (Sample.answering 60 56 2.5) Sample.started
              Sample.reading (Sample.archive 60 56 2.5) morning_power)
    as (rows & Hrows & Hlen & _).
  - reflexivity.
  - reflexivity.
  - reflexivity.
  - vm_compute. reflexivity.
  - exists rows. split; [exact Hrows|]. split; [exact Hlen|].
    rewrite Hlen. split; vm_compute; reflexivity.
Defined.


(** * Further properties of the script *)

(** ** How the blocks end *)

Section Cases.
Variable round : float -> Z -> float.

(** [draw_graph] either raises before it saves anything, leaving the world
    as it was, or draws the chart of the rows on disk. *)
Lemma draw_graph_cases test err eod watts w :
  (exists x, draw_graph round test err eod watts w = (w, Stop (Exception x))) \/
  (exists rows srows,
     dailyCsv (disk w) = Some rows /\ (2 <= length rows)%nat /\
     stringCsv (disk w) = Some srows /\ srows <> [] /\
     draw_graph round test err eod watts w
     = (drawn eod (chart round test err eod watts rows srows) w,
        Continue (energy_kWh round (total_watts rows), peak_watts rows))).
Proof.
  destruct (dailyCsv (disk w)) as [rows|] eqn:Hrows.
  2:{ left. exists OSError. unfold draw_graph. rewrite run_bind. simpl.
      rewrite Hrows. reflexivity. }
  destruct (le_lt_dec 2 (length rows)) as [Hlen|Hlen].
  2:{ left. eexists. apply (draw_graph_short round _ _ _ _ w rows Hrows Hlen). }
  destruct (stringCsv (disk w)) as [[|s1 srows]|] eqn:Hsrows.
  - left. exists IndexError.
    destruct rows as [|r1 [|r2 rows]]; simpl in Hlen; try lia.
    unfold draw_graph. rewrite run_bind. simpl. rewrite Hrows.
    do 2 (rewrite run_bind; simpl). rewrite Hsrows. reflexivity.
  - destruct eod eqn:Heod.
    + right. exists rows, (s1 :: srows).
      repeat (split; [auto; congruence|]).
      apply draw_graph_drawn; auto; congruence.
    + destruct watts as [x|].
      * right. exists rows, (s1 :: srows).
        repeat (split; [auto; congruence|]).
        apply draw_graph_drawn; eauto; try congruence.
      * left. exists NameError.
        destruct rows as [|r1 [|r2 rows]]; simpl in Hlen; try lia.
        unfold draw_graph. rewrite run_bind. simpl. rewrite Hrows.
        do 2 (rewrite run_bind; simpl). rewrite Hsrows.
        destruct srows; reflexivity.
  - left. exists OSError.
    destruct rows as [|r1 [|r2 rows]]; simpl in Hlen; try lia.
    unfold draw_graph. rewrite run_bind. simpl. rewrite Hrows.
    do 2 (rewrite run_bind; simpl). rewrite Hsrows. reflexivity.
Qed.

Lemma transform_of_Some c net p :
  transform_of c net = Some p ->
  exists pwr arch,
    power_reply net = Response pwr /\ archive_reply net = Response arch /\
    calculate_power (today c) pwr arch = Ok p.
Proof.
  unfold transform_of.
  destruct (power_reply net) as [pwr| | | |]; try discriminate.
  destruct (archive_reply net) as [arch| | | |]; try discriminate.
  destruct (calculate_power (today c) pwr arch) as [q|x] eqn:Hq;
    intros [= <-]. eauto.
Qed.

(** Without a sample the daytime block raises after its requests and
    before it touches a file. *)
Lemma daytime_block_failed c net test eod csv first w :
  transform_of c net = None ->
  exists x more,
    daytime_block round c net test eod csv first w
    = ({| disk := disk w; stdout := stdout w;
          requested := requested w ++ more; saved := saved w |},
       Stop (Exception x)).
Proof.
  unfold transform_of, daytime_block. intros Hnone.
  rewrite run_bind. simpl. rewrite run_bind.
  destruct (power_reply net) as [pwr| | | |]; simpl;
    try (eexists; eexists; reflexivity).
  rewrite run_bind. simpl. rewrite run_bind.
  destruct (archive_reply net) as [arch| | | |]; simpl;
    try (eexists; exists [powerApiUrl; stringApiUrl (today c)];
         rewrite <- app_assoc; reflexivity).
  rewrite run_bind.
  destruct (calculate_power (today c) pwr arch) as [q|x]; [discriminate|].
  simpl. eexists; exists [powerApiUrl; stringApiUrl (today c)].
  rewrite <- app_assoc. reflexivity.
Qed.
End Cases.

(** ** Acquisition and transform *)

(** X1: [call_inverter] returns only for a request that was answered, and
    then with the parsed payload and the status OK: no other status ever
    comes back from it, every failure leaves it as an exception. *)
Theorem call_inverter_returns_only_answers
    {A : Type} (url : string) (r : reply A) (x : A) (s : string) :
  call_inverter url r = Ok (x, s) <-> r = Response x /\ s = "OK".
Proof.
  split.
  - destruct r; simpl; intros [= <- <-] || intros [=]. auto.
  - intros [-> ->]. reflexivity.
Qed.

(** X2: [calculate_power] returns exactly on the archives whose paired
    string-1 offsets are times of day and whose paired products are finite;
    what it returns is then fixed by the two payloads: the sorted series
    paired by position, cut by 54.  On any other archive it raises. *)
Theorem calculate_power_returns_iff
    (today : string) (pwrData : power_payload) (s : archive_payload)
    (p : power) :
  calculate_power today pwrData s = Ok p
  <-> digestible s = true /\ p = transformed today pwrData s.
Proof.
  split.
  - apply calculate_power_inv.
  - intros [Hd ->]. apply calculate_power_digestible, Hd.
Qed.

Lemma StronglySorted_take {A} (R : relation A) (l : list A) (n : nat) :
  StronglySorted R l -> StronglySorted R (take n l).
Proof.
  intros H. rewrite <- (take_drop n l) in H.
  eapply StronglySorted_app_1_l, H.
Qed.

Lemma StronglySorted_drop {A} (R : relation A) (l : list A) (n : nat) :
  StronglySorted R l -> StronglySorted R (drop n l).
Proof.
  intros H. rewrite <- (take_drop n l) in H.
  eapply StronglySorted_app_1_r, H.
Qed.

Lemma timestampList_transformed today pwrData s :
  timestampList (transformed today pwrData s)
  = (fun kv : Z * float => {| ts_day := today; ts_secs := kv.1 |})
      <$> drop 54 (take (length (series (Voltage_DC_String_1 s)))
                        (series (Current_DC_String_1 s))).
Proof.
  simpl. unfold string1_pairs.
  rewrite <- fst_zip_prefix, fmap_drop, <- list_fmap_compose. reflexivity.
Qed.

(** X3: the timestamps [calculate_power] returns are those of string 1's
    current samples, from the 55th paired sample on; they are all times of
    today and strictly ascending, so the string CSV never holds two rows
    for one instant nor rows out of order. *)
Theorem timestamps_ascend_within_today
    (today : string) (pwrData : power_payload) (s : archive_payload)
    (p : power) :
  calculate_power today pwrData s = Ok p ->
  timestampList p
  = (fun kv : Z * float => {| ts_day := today; ts_secs := kv.1 |})
      <$> drop 54 (take (length (series (Voltage_DC_String_1 s)))
                        (series (Current_DC_String_1 s))) /\
  StronglySorted earlier (timestampList p) /\
  Forall (fun t => ts_day t = today /\ 0 <= ts_secs t < 86400)
         (timestampList p).
Proof.
  intros Hp. apply calculate_power_inv in Hp as [Hd ->].
  split; [apply timestampList_transformed|]. split.
  - rewrite timestampList_transformed.
    apply (StronglySorted_fmap _ key_lt earlier); [auto|].
    apply StronglySorted_drop, StronglySorted_take, series_ascending.
  - simpl. apply Forall_drop, Forall_fmap.
    unfold digestible in Hd. apply andb_prop in Hd as [H1 _].
    rewrite forallb_forall in H1.
    apply List.Forall_forall. intros q Hq. specialize (H1 q Hq).
    apply andb_prop in H1 as [Hw _]. unfold within_day in Hw.
    apply andb_prop in Hw as [Hlo Hhi]. simpl. split; [reflexivity|]. lia.
Qed.

Lemma timestamps_ascend_within_today_witness :
  StronglySorted earlier (timestampList morning_power) /\
  length (timestampList morning_power) = 6%nat.
Proof.
  destruct (timestamps_ascend_within_today "2021-09-11" Sample.reading
              (Sample.archive 60 56 2.5) morning_power) as (_ & Hs & _).
  - vm_compute. reflexivity.
  - split; [exact Hs | vm_compute; reflexivity].
Defined.

(** ** The peak *)

Lemma foldl_max_spec (xs : list Z) (x : Z) :
  (foldl Z.max x xs = x \/ foldl Z.max x xs ∈ xs) /\
  x <= foldl Z.max x xs /\
  Forall (fun y => y <= foldl Z.max x xs) xs.
Proof.
  revert x. induction xs as [|y xs IH]; intros x; simpl.
  - split; [left; reflexivity|]. split; [lia | constructor].
  - destruct (IH (Z.max x y)) as (Hin & Hle & Hall).
    split; [|split].
    + destruct Hin as [Heq | Hin].
      * rewrite Heq. destruct (Z.max_spec x y) as [[_ ->] | [_ ->]];
          [right; constructor | left; reflexivity].
      * right. constructor. exact Hin.
    + lia.
    + constructor; [lia | exact Hall].
Qed.

Lemma peak_watts_spec (rows : list (string * Z)) :
  rows <> [] ->
  peak_watts rows ∈ rows.*2 /\ Forall (fun r => r.2 <= peak_watts rows) rows.
Proof.
  destruct rows as [|r rows]; [congruence|]. intros _.
  change (peak_watts (r :: rows)) with (foldl Z.max r.2 rows.*2).
  change ((r :: rows).*2) with (r.2 :: rows.*2).
  destruct (foldl_max_spec (rows.*2) r.2) as (Hin & Hle & Hall).
  set (m := foldl Z.max r.2 rows.*2) in *.
  split.
  - destruct Hin as [Heq | Hin]; [rewrite Heq; constructor|].
    constructor. exact Hin.
  - constructor; [exact Hle|].
    rewrite Forall_fmap in Hall. exact Hall.
Qed.

(** X4: whenever [draw_graph] returns, the peak it returns is one of the
    watt values of the aggregate file and no value of the file exceeds
    it. *)
Theorem returned_peak_is_maximum
    (round : float -> Z -> float) (test : bool) (err : string) (eod : bool)
    (watts : option Z) (w w' : world) (kWh : float) (maxPwr : Z) :
  draw_graph round test err eod watts w = (w', Continue (kWh, maxPwr)) ->
  exists rows : list (string * Z),
    dailyCsv (disk w) = Some rows /\
    maxPwr ∈ rows.*2 /\
    Forall (fun r => r.2 <= maxPwr) rows.
Proof.
  intros Hdraw.
  destruct (draw_graph_cases round test err eod watts w)
    as [[x Hx] | (rows & srows & Hrows & Hlen & _ & _ & Heq)].
  - rewrite Hx in Hdraw. discriminate.
  - rewrite Heq in Hdraw. injection Hdraw as _ _ <-.
    exists rows. split; [exact Hrows|].
    apply peak_watts_spec. destruct rows; simpl in Hlen; [lia | congruence].
Qed.

Lemma returned_peak_is_maximum_witness :
  exists rows : list (string * Z),
    dailyCsv (disk (world_with Sample.started)) = Some rows /\
    1100 ∈ rows.*2 /\
    Forall (fun r => r.2 <= 1100) rows.
Proof.
  apply (returned_peak_is_maximum Sample.round_decimals false "OK" true None
           (world_with Sample.started)
           (drawn true summary_chart (world_with Sample.started))
           (energy_kWh Sample.round_decimals 2000) 1100).
  reflexivity.
Defined.

(** ** The end-of-day block *)

Section Finalize.
Variable round : float -> Z -> float.



End Finalize.


(** ** How a run ends *)

Section Ends.
Variable round : float -> Z -> float.

Lemma daytime_block_end c net test eod csv first w :
  match daytime_block round c net test eod csv first w with
  | (w', Continue (status, _)) => status = "OK" /\ stdout w' = stdout w
  | (w', Stop st) => (exists x, st = Exception x) /\ stdout w' = stdout w
  end.
Proof.
  destruct (transform_of c net) as [p|] eqn:Hp.
  - apply transform_of_Some in Hp as (pwr & arch & Hpr & Har & Hc).
    rewrite (daytime_block_answered round c net test eod csv first
               pwr arch p w Hpr Har Hc).
    rewrite run_bind.
    destruct (csv && negb first).
    + rewrite when_true, run_bind.
      destruct (draw_graph_cases round test Script.ERRORSTATUS eod
                  (Some (watts p)) (sampled c p w))
        as [[x Hx] | (rows & srows & _ & _ & _ & _ & Heq)].
      * rewrite Hx. simpl. eauto.
      * rewrite Heq. simpl. auto.
    + rewrite when_false. simpl. auto.
  - destruct (daytime_block_failed round c net test eod csv first w Hp)
      as (x & more & Heq).
    rewrite Heq. simpl. eauto.
Qed.

Lemma finalize_block_end c test hist watts w :
  match finalize_block round c test hist watts w with
  | (w', Continue _) => stdout w' = stdout w
  | (w', Stop st) => (exists x, st = Exception x) /\ stdout w' = stdout w
  end.
Proof.
  unfold finalize_block. rewrite run_bind.
  destruct (draw_graph_cases round test Script.ERRORSTATUS true watts w)
    as [[x Hx] | (rows & srows & _ & _ & _ & _ & Heq)].
  - rewrite Hx. simpl. eauto.
  - rewrite Heq. cbv beta iota.
    do 3 (rewrite run_bind; simpl).
    destruct (write_history_html hist _ _) as [h|x]; simpl; eauto.
Qed.

Lemma file_lines_exit_lines c f :
  file_lines (exists_ (dailyPng f)) (exists_ (dailyCsv f))
             (exists_ (stringCsv f))
             (if exists_ (dailyCsv f) then false else FIRSTRUN) (timeIso c)
  = exit_lines c f.
Proof.
  unfold file_lines, exit_lines.
  destruct (exists_ (dailyPng f)), (exists_ (dailyCsv f)),
    (exists_ (stringCsv f)); reflexivity.
Qed.

(** A run ends in one of three ways: in an exception, with nothing printed
    by the blocks; through [sys.exit(0)], with nothing printed either; or at
    the end of the script, after the line about today's files. *)
Lemma blocks_end c net test fd fe eod f w :
  (crashed (snd (blocks round c net test fd fe eod f w)) = true /\
   stdout (fst (blocks round c net test fd fe eod f w)) = stdout w) \/
  (snd (blocks round c net test fd fe eod f w)
   = (if all_present f then Stop (SystemExit 0) else Continue tt) /\
   stdout (fst (blocks round c net test fd fe eod f w))
   = stdout w ++ (if all_present f then [] else exit_lines c f)).
Proof.
  unfold blocks. rewrite run_bind.
  match goal with
  | |- context [(if ?b then ?c1 else ?c2) w] =>
      assert (Hfirst : match (if b then c1 else c2) w with
                       | (w', Continue (status, _)) =>
                           status = "OK" /\ stdout w' = stdout w
                       | (w', Stop st) =>
                           (exists ex, st = Exception ex) /\ stdout w' = stdout w
                       end);
      [destruct b; [apply daytime_block_end | simpl; auto]|];
      destruct ((if b then c1 else c2) w) as [wm [[status watts]|st]]
  end.
  2:{ destruct Hfirst as [[x ->] Hout]. left. simpl. auto. }
  destruct Hfirst as [-> Hout].
  rewrite run_bind.
  match goal with
  | |- context [when ?b ?fin wm] =>
      assert (Hfin : match when b fin wm with
                     | (w', Continue _) => stdout w' = stdout wm
                     | (w', Stop st) =>
                         (exists ex, st = Exception ex) /\ stdout w' = stdout wm
                     end);
      [destruct b; [rewrite when_true; apply finalize_block_end
                   | rewrite when_false; simpl; auto]|];
      destruct (when b fin wm) as [wf [[]|st]]
  end.
  2:{ destruct Hfin as [[x ->] Hfin]. left. simpl. split; congruence. }
  right. rewrite log_errors_unfold, file_lines_exit_lines.
  fold (all_present f).
  destruct (all_present f); simpl.
  - split; [reflexivity|]. rewrite app_nil_r. congruence.
  - split; [reflexivity|]. rewrite app_nil_r. congruence.
Qed.
End Ends.

Lemma execute_flags (round : float -> Z -> float) (a : args) (c : clock)
    (net : inverter) (f : files) :
  execute round (Flags a) c net f = run round a c net f.
Proof. reflexivity. Qed.

(** X5: what a run that no interrupt cuts short prints on standard output.
    When the command line asks for help, the help text and nothing else;
    when the command line is rejected, nothing; otherwise the notices for
    the flags and then at most one line, and that only when the run reaches
    the end of the script: that the archival image already exists, or else
    that the string CSV is missing beside an existing aggregate CSV.  The
    lines for a missing aggregate CSV and for a status other than OK are
    never printed.  The interrupt handler, when it runs, prints two empty
    lines, its message and one more empty line. *)
Theorem run_prints_at_most_one_line
    (round : float -> Z -> float) (cl : command_line) (c : clock)
    (net : inverter) (f : files) :
  stdout (fst (execute round cl c net f))
  = match cl with
    | Flags a =>
        banners a ++
        (if crashed (snd (execute round cl c net f)) || all_present f then []
         else exit_lines c f)
    | HelpRequested text => [text]
    | Rejected => []
    end /\
  (forall w : world,
     stdout (fst (signal_handler w))
     = stdout w ++ [EmptyString; EmptyString;
                    "Thanks for all the fish, smeg head."; EmptyString]).
Proof.
  split.
  - destruct cl as [a|text|]; [|reflexivity|reflexivity].
    rewrite execute_flags, run_blocks.
    destruct (blocks_end round c net (t a) (d a) (e a) (e a) f
                (started_from a f)) as [[Hcrash Hout] | [Hend Hout]].
    + rewrite Hout, Hcrash. simpl. rewrite app_nil_r. reflexivity.
    + rewrite Hout, Hend. destruct (all_present f); reflexivity.
  - intros w. simpl. rewrite <- !app_assoc. reflexivity.
Qed.

(** X6: how a run that no interrupt cuts short leaves.  Asked for help it
    leaves with status 0, and a rejected command line makes it leave with
    status 2, in both cases before any request or file; with its flags
    parsed it never leaves through [sys.exit] with a status other than 0,
    and leaves through it exactly when it did not raise and the archival
    image and both CSV files existed when it started, reaching the end of
    the script otherwise.  Status 1 is that of the interrupt handler, which
    touches no file. *)
Theorem run_exit_status
    (round : float -> Z -> float) (cl : command_line) (c : clock)
    (net : inverter) (f : files) :
  (forall code : Z,
     snd (execute round cl c net f) = Stop (SystemExit code) ->
     (code = 0 /\
      ((exists text, cl = HelpRequested text) \/
       (exists a, cl = Flags a /\ all_present f = true))) \/
     (code = 2 /\ cl = Rejected)) /\
  (forall a : args,
     cl = Flags a ->
     crashed (snd (execute round cl c net f)) = false ->
     snd (execute round cl c net f)
     = if all_present f then Stop (SystemExit 0) else Continue tt) /\
  (forall text : string,
     cl = HelpRequested text ->
     snd (execute round cl c net f) = Stop (SystemExit 0) /\
     disk (fst (execute round cl c net f)) = f /\
     requested (fst (execute round cl c net f)) = []) /\
  (cl = Rejected ->
   snd (execute round cl c net f) = Stop (SystemExit 2) /\
   disk (fst (execute round cl c net f)) = f /\
   requested (fst (execute round cl c net f)) = []) /\
  (forall w : world,
     snd (signal_handler w) = Stop (SystemExit 1) /\
     disk (fst (signal_handler w)) = disk w).
Proof.
  split; [|split; [|split; [|split]]].
  - intros code Hcode. destruct cl as [a|text|].
    + left. rewrite execute_flags, run_blocks in Hcode.
      destruct (blocks_end round c net (t a) (d a) (e a) (e a) f
                  (started_from a f)) as [[Hcrash _] | [Hend _]].
      * rewrite Hcode in Hcrash. discriminate.
      * rewrite Hcode in Hend.
        destruct (all_present f) eqn:Hall; [|discriminate].
        injection Hend as ->. eauto.
    + left. injection Hcode as <-. eauto.
    + right. injection Hcode as <-. auto.
  - intros a -> Hcrash. rewrite execute_flags, run_blocks in *.
    destruct (blocks_end round c net (t a) (d a) (e a) (e a) f
                (started_from a f)) as [[Hc _] | [Hend _]].
    + congruence.
    + exact Hend.
  - intros text ->. repeat split.
  - intros ->. repeat split.
  - intros w. split; reflexivity.
Qed.

(** ** What a run writes *)

(** X7: in a daytime run without a sample, because a request fails in any
    way, a body does not parse, or [calculate_power] raises, nothing is
    persisted: the run ends in an exception with every file as it was, no
    image saved and only the notices for the flags printed. *)
Theorem failed_sample_writes_nothing
    (round : float -> Z -> float) (a : args) (c : clock) (net : inverter)
    (f : files) :
  daytime c (d a) (e a) = true ->
  transform_of c net = None ->
  crashed (snd (run round a c net f)) = true /\
  disk (fst (run round a c net f)) = f /\
  saved (fst (run round a c net f)) = [] /\
  stdout (fst (run round a c net f)) = banners a.
Proof.
  intros Hday Hnone. rewrite run_blocks. unfold blocks.
  rewrite Hday, run_bind.
  destruct (daytime_block_failed round c net (t a) (e a)
              (exists_ (dailyCsv f))
              (if exists_ (dailyCsv f) then false else FIRSTRUN)
              (started_from a f) Hnone) as (x & more & Heq).
  rewrite Heq. simpl. auto.
Qed.

Lemma failed_sample_writes_nothing_witness :
  crashed (snd (run Sample.round_decimals Sample.no_flags
                    (Sample.at_time 36000) late_inverter Sample.started))
  = true /\
  disk (fst (run Sample.round_decimals Sample.no_flags
                 (Sample.at_time 36000) late_inverter Sample.started))
  = Sample.started.
Proof.
  destruct (failed_sample_writes_nothing Sample.round_decimals
              Sample.no_flags (Sample.at_time 36000) late_inverter
              Sample.started) as (Hc & Hd & _).
  - reflexivity.
  - vm_compute. reflexivity.
  - split; assumption.
Defined.

(** X8: the aggregate CSV is append-only.  A run leaves it as it was,
    unless it is a daytime run that got its sample: then the file is the
    old rows followed by one new row, the run's timestamp and the
    instantaneous power (the file being created when it did not exist);
    this holds however the run ends afterwards. *)
Theorem aggregate_csv_gains_at_most_one_row
    (round : float -> Z -> float) (a : args) (c : clock) (net : inverter)
    (f : files) :
  dailyCsv (disk (fst (run round a c net f)))
  = if daytime c (d a) (e a) then
      match transform_of c net with
      | Some p => Some (default [] (dailyCsv f) ++ [(timeIso c, watts p)])
      | None => dailyCsv f
      end
    else dailyCsv f.
Proof.
  destruct (daytime c (d a) (e a)) eqn:Hday.
  - destruct (transform_of c net) as [p|] eqn:Hp.
    + apply transform_of_Some in Hp as (pwr & arch & Hpr & Har & Hc).
      rewrite run_blocks.
      rewrite (blocks_answered round c net _ _ _ _ f pwr arch p _
                 Hday Hpr Har Hc).
      apply (after_sample_preserves round
               (fun w => dailyCsv (disk w)
                         = Some (default [] (dailyCsv f)
                                   ++ [(timeIso c, watts p)])));
        try unobserved.
      reflexivity.
    + rewrite run_blocks. unfold blocks. rewrite Hday, run_bind.
      destruct (daytime_block_failed round c net (t a) (e a)
                  (exists_ (dailyCsv f))
                  (if exists_ (dailyCsv f) then false else FIRSTRUN)
                  (started_from a f) Hp) as (x & more & Heq).
      rewrite Heq. reflexivity.
  - rewrite run_blocks.
    apply (blocks_preserves_outside_daytime round
             (fun w => dailyCsv (disk w) = dailyCsv f)); auto; try unobserved.
Qed.

(** X9: [draw_graph] is all or nothing.  When it raises, the world is as it
    was: no image was saved.  When it returns, the live image is the chart
    it drew, with the returned total in its title; at end of day the
    archival image is that same chart, otherwise the archival image is
    untouched; and none of the CSV files nor the index was written. *)
Theorem draw_graph_all_or_nothing
    (round : float -> Z -> float) (test : bool) (err : string) (eod : bool)
    (watts : option Z) (w : world) :
  match draw_graph round test err eod watts w with
  | (w', Stop s) => w' = w /\ exists x, s = Exception x
  | (w', Continue (kWh, _)) =>
      exists fig : figure,
        LIVEIMAGE (disk w') = Some fig /\
        dailyPng (disk w') = (if eod then Some fig else dailyPng (disk w)) /\
        generated_kWh fig = kWh /\
        daily_summary fig = eod /\
        Some (bars fig) = dailyCsv (disk w) /\
        Some (lines fig) = stringCsv (disk w) /\
        dailyCsv (disk w') = dailyCsv (disk w) /\
        stringCsv (disk w') = stringCsv (disk w) /\
        SUMMARYCSV (disk w') = SUMMARYCSV (disk w) /\
        HISTORYHTML (disk w') = HISTORYHTML (disk w)
  end.
Proof.
  destruct (draw_graph_cases round test err eod watts w)
    as [[x Hx] | (rows & srows & Hrows & _ & Hsrows & _ & Heq)].
  - rewrite Hx. eauto.
  - rewrite Heq. eexists.
    destruct eod; simpl; rewrite ?Hrows, ?Hsrows; repeat split; reflexivity.
Qed.





(** ** Sampling and finalizing in one run *)

Lemma daytime_excludes_end_of_day c png csv scsv fd fe :
  daytime c fd fe = true -> fd && fe = false ->
  end_of_day c png csv scsv fd fe = false /\ fe = false.
Proof.
  unfold daytime, end_of_day. intros Hday Hboth.
  destruct fd, fe; try discriminate.
  - simpl. rewrite !andb_false_r. auto.
  - simpl in Hday. rewrite andb_false_r in Hday. discriminate.
  - simpl. rewrite !orb_false_r. rewrite orb_false_r in Hday.
    apply andb_prop in Hday as [Hday _].
    apply andb_prop in Hday as [_ Hlt]. apply Z.ltb_lt in Hlt.
    assert (Hgt : (timeNow c >? sunset c) = false).
    { rewrite Z.gtb_ltb. apply Z.ltb_ge. lia. }
    rewrite Hgt. auto.
Qed.

Lemma blocks_preserves_without_finalize (P : world -> Prop)
    (round : float -> Z -> float) c net test fd fe f :
  end_of_day c (exists_ (dailyPng f)) (exists_ (dailyCsv f))
             (exists_ (stringCsv f)) fd fe = false ->
  (forall s, preserves P (print s)) ->
  (forall url, preserves P (request url)) ->
  (forall h, preserves P (modify_disk (fun f => set_dailyCsv (h f) f))) ->
  (forall v, preserves P (modify_disk (set_stringCsv v))) ->
  (forall fig, preserves P (savefig Live fig)) ->
  preserves P (blocks round c net test fd fe false f).
Proof.
  intros Heod Hp Hr Hd Hs Hl. unfold blocks. rewrite Heod.
  preserves_auto.
  - apply daytime_block_preserves; auto. discriminate.
  - discriminate.
  - apply log_errors_preserves; auto.
Qed.

(** X12: only a run with both override flags samples and finalizes at once.
    When the daytime test holds and not both flags are given, the
    end-of-day test fails, so the run leaves the summary CSV, the index and
    the archival image alone and saves no archival image. *)
Theorem sampling_run_does_not_finalize
    (round : float -> Z -> float) (a : args) (c : clock) (net : inverter)
    (f : files) :
  daytime c (d a) (e a) = true ->
  d a && e a = false ->
  end_of_day c (exists_ (dailyPng f)) (exists_ (dailyCsv f))
             (exists_ (stringCsv f)) (d a) (e a) = false /\
  SUMMARYCSV (disk (fst (run round a c net f))) = SUMMARYCSV f /\
  HISTORYHTML (disk (fst (run round a c net f))) = HISTORYHTML f /\
  dailyPng (disk (fst (run round a c net f))) = dailyPng f /\
  archived (fst (run round a c net f)) = false.
Proof.
  intros Hday Hboth.
  destruct (daytime_excludes_end_of_day c (exists_ (dailyPng f))
              (exists_ (dailyCsv f)) (exists_ (stringCsv f)) (d a) (e a)
              Hday Hboth) as [Heod He].
  split; [exact Heod|].
  rewrite run_blocks. rewrite He in *.
  repeat split.
  - apply (blocks_preserves_without_finalize
             (fun w => SUMMARYCSV (disk w) = SUMMARYCSV f));
      auto; try unobserved.
  - apply (blocks_preserves_without_finalize
             (fun w => HISTORYHTML (disk w) = HISTORYHTML f));
      auto; try unobserved.
  - apply (blocks_preserves_without_finalize
             (fun w => dailyPng (disk w) = dailyPng f));
      auto; try unobserved.
  - apply (blocks_preserves_without_finalize (fun w => archived w = false));
      auto; try unobserved.
    intros fig. apply savefig_live_keeps_archived.
Qed.

Lemma sampling_run_does_not_finalize_witness :
  SUMMARYCSV (disk (fst (run Sample.round_decimals
                             {| d := true; e := false; t := false |}
                             (Sample.at_time 70000)
                             (Sample.answering 56 55 2.5) Sample.started)))
  = SUMMARYCSV Sample.started /\
  archived (fst (run Sample.round_decimals
                     {| d := true; e := false; t := false |}
                     (Sample.at_time 70000)
                     (Sample.answering 56 55 2.5) Sample.started)) = false.
Proof.
  destruct (sampling_run_does_not_finalize Sample.round_decimals
              {| d := true; e := false; t := false |}
              (Sample.at_time 70000) (Sample.answering 56 55 2.5)
              Sample.started) as (_ & Hs & _ & _ & Ha).
  - reflexivity.
  - reflexivity.
  - split; assumption.
Defined.

(** X13: while the archive pairs at most 54 samples for a string, the
    transform's rows are empty; a daytime run on a day already started
    then appends its aggregate row, leaves an empty string CSV behind and
    ends in an exception in [draw_graph] without saving an image. *)
Theorem short_archive_cannot_be_drawn
    (round : float -> Z -> float) (a : args) (c : clock) (net : inverter)
    (f : files) (p : power) :
  daytime c (d a) (e a) = true ->
  transform_of c net = Some p ->
  string_rows p = [] ->
  exists_ (dailyCsv f) = true ->
  crashed (snd (run round a c net f)) = true /\
  saved (fst (run round a c net f)) = [] /\
  dailyCsv (disk (fst (run round a c net f)))
  = Some (default [] (dailyCsv f) ++ [(timeIso c, watts p)]) /\
  stringCsv (disk (fst (run round a c net f))) = Some [].
Proof.
  intros Hday Hp Hrows Hcsv.
  apply transform_of_Some in Hp as (pwr & arch & Hpr & Har & Hc).
  rewrite run_blocks.
  rewrite (blocks_answered round c net _ _ _ _ f pwr arch p _ Hday Hpr Har Hc).
  unfold after_sample.
  rewrite Hcsv, when_true, !run_bind_assoc, !(run_bind (draw_graph _ _ _ _ _)).
  destruct (draw_graph_cases round (t a) Script.ERRORSTATUS (e a)
              (Some (watts p)) (sampled c p (started_from a f)))
    as [[x Hx] | (rows & srows & _ & _ & Hsrows & Hne & _)].
  - rewrite Hx. simpl. rewrite Hrows. auto.
  - simpl in Hsrows. rewrite Hrows in Hsrows. congruence.
Qed.

Lemma short_archive_cannot_be_drawn_witness :
  crashed (snd (run Sample.round_decimals Sample.no_flags
                    (Sample.at_time 36000) (Sample.answering 40 40 2.5)
                    Sample.started)) = true /\
  stringCsv (disk (fst (run Sample.round_decimals Sample.no_flags
                            (Sample.at_time 36000)
                            (Sample.answering 40 40 2.5) Sample.started)))
  = Some [].
Proof.
  destruct (short_archive_cannot_be_drawn Sample.round_decimals
              Sample.no_flags (Sample.at_time 36000)
              (Sample.answering 40 40 2.5) Sample.started
              (transformed "2021-09-11" Sample.reading
                           (Sample.archive 40 40 2.5)))
    as (Hc & _ & _ & Hs).
  - reflexivity.
  - vm_compute. reflexivity.
  - vm_compute. reflexivity.
  - reflexivity.
  - split; assumption.
Defined.

(** ** The first sample of a day and the later ones *)

Section FirstSample.
Variable round : float -> Z -> float.



End FirstSample.


